(** * Prezzeria: the patient dashboard and the create-record form

    A shallow embedding of the two React components of the client,
    [PatientUI] (client/app/patient/page.tsx) and [Home] (the create form),
    and of the way their handlers talk to the REST API through axios.

    A handler is an [async] arrow function: it runs synchronously up to its
    [await], hands a request to axios, and is resumed with the outcome.  It is
    embedded as a term of the inductive type [prog]; the handler reads the
    component state through the closure of the render that created it (the
    [state] argument of each handler below) and writes it through the
    [useState] setters, which are commands of the program.

    A mounted component is a [page]: its state, what it did to the browser
    ([alert], [confirm], the console), and the requests in flight with the
    rests of the handlers that await them.  The events of the user and the
    settlements of axios interleave freely ([step]); [run] is the special
    case of a handler that is answered before anything else happens. *)

From Stdlib Require Import Bool List String Ascii Arith ZArith Lia PrimFloat.
Import ListNotations.
Open Scope string_scope.
#[local] Set Warnings "-register-all".

(** ** JavaScript values *)

Module Js.

(** What [res.data], [err.response.data] and the pieces of component state
    typed [any] can hold: a parsed JSON document, or [undefined]. *)
Inductive value : Type :=
| VUndefined
| VNull
| VBool (b : bool)
| VNum (x : float)
| VStr (s : string)
| VArr (items : list value)
| VObj (fields : list (string * value)).

Definition object := list (string * value).

(** [Boolean(v)]: what [!v], [v && e] and [v || e] test. *)
Definition truthy (v : value) : bool :=
  match v with
  | VUndefined | VNull => false
  | VBool b => b
  | VNum x => negb (PrimFloat.eqb x 0%float) && negb (PrimFloat.is_nan x)
  | VStr s => negb (String.eqb s "")
  | VArr _ | VObj _ => true
  end.

(** [a || b] *)
Definition or_else (a b : value) : value := if truthy a then a else b.

(** What is thrown here: the rejection of an axios promise (carrying
    [err.response.data] when the server answered), the [TypeError] of a
    property read on [null] or [undefined] or of a call of what is no
    function, and the [Error] "Objects are not valid as a React child" that
    React throws when it is given an object to display. *)
Inductive exn : Type :=
| AxiosError (response : option value)
| TypeError
| ChildError.

(** Whether React accepts [v] as a child [{v}]: anything but an object; an
    array is accepted when each of its items is. *)
Fixpoint valid_child (v : value) : bool :=
  match v with
  | VObj _ => false
  | VArr items =>
      (fix all (l : list value) : bool :=
         match l with
         | [] => true
         | x :: rest => valid_child x && all rest
         end) items
  | VUndefined | VNull | VBool _ | VNum _ | VStr _ => true
  end.


Fixpoint lookup (k : string) (o : object) : value :=
  match o with
  | [] => VUndefined
  | (k', v) :: o' => if String.eqb k k' then v else lookup k o'
  end.

(** [v.k] for the property names this client reads ([name], [city], [age],
    [gender], [height], [weight], [bmi], [verdict], [detail]): none of them
    is [length], an index, or a prototype property, so on a primitive or an
    array the read gives [undefined]. *)
Definition get (v : value) (k : string) : exn + value :=
  match v with
  | VUndefined | VNull => inl TypeError
  | VObj o => inr (lookup k o)
  | VBool _ | VNum _ | VStr _ | VArr _ => inr VUndefined
  end.

Definition bind {A B : Type} (r : exn + A) (f : A -> exn + B) : exn + B :=
  match r with
  | inl e => inl e
  | inr a => f a
  end.

(** [items.map(f)] with a callback that may throw. *)
Fixpoint traverse {A B : Type} (f : A -> exn + B) (items : list A)
  : exn + list B :=
  match items with
  | [] => inr []
  | x :: rest =>
      bind (f x) (fun y => bind (traverse f rest) (fun ys => inr (y :: ys)))
  end.

(** A JSX child [{v && element}]: the element when [v] is truthy, else [v]
    itself, of which React shows nothing unless it is a number. *)
Inductive child (A : Type) : Type :=
| Element (a : A)
| Bare (v : value).
Arguments Element {A} a.
Arguments Bare {A} v.

Definition jsx_and {A : Type} (v : value) (element : exn + A)
  : exn + child A :=
  if truthy v then bind element (fun a => inr (Element a)) else inr (Bare v).

(** [v?.k] *)
Definition get_opt (v : value) (k : string) : value :=
  match get v k with
  | inl _ => VUndefined
  | inr x => x
  end.

(** [{ ...prev, [k]: v }]: an own key keeps its place, a new one goes last. *)
Fixpoint spread_set (prev : object) (k : string) (v : value) : object :=
  match prev with
  | [] => [(k, v)]
  | (k', v') :: rest =>
      if String.eqb k k' then (k', v) :: rest
      else (k', v') :: spread_set rest k v
  end.

End Js.

(** ** Asynchronous handlers over axios *)

Module Async.
Import Js.

Inductive http_method : Type := GET | POST | PUT | DELETE.

(** The arguments of one axios call: [axios.get(url, { params })],
    [axios.post(url, data)], [axios.put(url, data)], [axios.delete(url)].
    No call of this client passes a [signal] or a [cancelToken]. *)
Record request : Type := mkRequest {
  method : http_method;
  url : string;
  params : list (string * string);
  data : option value
}.

(** How the awaited promise settles: [res.data] when it resolves, and
    [err.response.data] (absent when no answer came) when it rejects. *)
Inductive outcome : Type :=
| Resolved (data : value)
| Rejected (response : option value).

Inductive console_arg : Type :=
| CStr (s : string)
| CVal (v : value)
| CExn (e : exn).

(** What the page does to the browser besides rendering. *)
Inductive io_event : Type :=
| Alerted (msg : string)
| Confirmed (msg : string) (answer : bool)
| ConsoleError (args : list console_arg)
| ConsoleLog (args : list console_arg)
| DefaultPrevented.

Section Programs.

(** The [useState] cells of the component. *)
Variable state : Type.

Inductive prog : Type :=
| Ret
| Throw (e : exn)
| Update (f : state -> state) (k : prog)
| Emit (e : io_event) (k : prog)
| Confirm (msg : string) (k : bool -> prog)
| Await (r : request) (k : outcome -> prog).

(** [p; q] *)
Fixpoint seq (p q : prog) : prog :=
  match p with
  | Ret => q
  | Throw e => Throw e
  | Update f k => Update f (seq k q)
  | Emit e k => Emit e (seq k q)
  | Confirm msg k => Confirm msg (fun b => seq (k b) q)
  | Await r k => Await r (fun o => seq (k o) q)
  end.

(** [try { p } catch (err) { h err }] *)
Fixpoint try_catch (p : prog) (h : exn -> prog) : prog :=
  match p with
  | Ret => Ret
  | Throw e => h e
  | Update f k => Update f (try_catch k h)
  | Emit e k => Emit e (try_catch k h)
  | Confirm msg k => Confirm msg (fun b => try_catch (k b) h)
  | Await r k => Await r (fun o => try_catch (k o) h)
  end.

(** [try { p } finally { q }] *)
Fixpoint finally (p q : prog) : prog :=
  match p with
  | Ret => q
  | Throw e => seq q (Throw e)
  | Update f k => Update f (finally k q)
  | Emit e k => Emit e (finally k q)
  | Confirm msg k => Confirm msg (fun b => finally (k b) q)
  | Await r k => Await r (fun o => finally (k o) q)
  end.

Definition update (f : state -> state) : prog := Update f Ret.
Definition emit (e : io_event) : prog := Emit e Ret.
Definition alert (msg : string) : prog := emit (Alerted msg).

(** [const res = await axios.m(...); k res.data]: a rejection is thrown at
    the [await]. *)
Definition await_axios (r : request) (k : value -> prog) : prog :=
  Await r (fun o =>
    match o with
    | Resolved d => k d
    | Rejected resp => Throw (AxiosError resp)
    end).

(** A property read inside a handler: a [TypeError] is thrown in place. *)
Definition reading (r : exn + value) (k : value -> prog) : prog :=
  match r with
  | inl e => Throw e
  | inr v => k v
  end.

(** The mounted component: its state, what it did to the browser so far
    (oldest first), and the requests axios has not settled yet (oldest
    first), each with the rest of the handler that awaits it. *)
Record page : Type := mkPage {
  ui : state;
  log : list io_event;
  inflight : list (request * (outcome -> prog))
}.

(** Runs [p] up to its first [await] or to its end.  [answer] is what the
    user replies to a [confirm] dialog opened on the way.  An exception that
    leaves the handler rejects the promise the handler returns, which nobody
    awaits. *)
Fixpoint launch (p : prog) (answer : bool) (pg : page) : page :=
  match p with
  | Ret => pg
  | Throw _ => pg
  | Update f k => launch k answer (mkPage (f (ui pg)) (log pg) (inflight pg))
  | Emit e k => launch k answer (mkPage (ui pg) (log pg ++ [e]) (inflight pg))
  | Confirm msg k =>
      launch (k answer) answer
        (mkPage (ui pg) (log pg ++ [Confirmed msg answer]) (inflight pg))
  | Await r k => mkPage (ui pg) (log pg) (inflight pg ++ [(r, k)])
  end.

Fixpoint remove_nth {A : Type} (i : nat) (l : list A) : list A :=
  match i, l with
  | _, [] => []
  | O, _ :: l' => l'
  | S i', x :: l' => x :: remove_nth i' l'
  end.

(** axios settles the [i]-th pending request with [o]: the handler that
    awaits it goes on. *)
Definition settle (i : nat) (o : outcome) (answer : bool) (pg : page) : page :=
  match nth_error (inflight pg) i with
  | None => pg
  | Some (_, k) =>
      launch (k o) answer (mkPage (ui pg) (log pg) (remove_nth i (inflight pg)))
  end.

(** The [await] at which [launch] leaves [p], if [p] reaches one. *)
Fixpoint awaited (p : prog) (answer : bool)
  : list (request * (outcome -> prog)) :=
  match p with
  | Ret => []
  | Throw _ => []
  | Update _ k => awaited k answer
  | Emit _ k => awaited k answer
  | Confirm _ k => awaited (k answer) answer
  | Await r k => [(r, k)]
  end.

(** The requests a handler issues when run alone from [pg] and every
    [await] is answered at once from [os]. *)
Fixpoint run (p : prog) (answer : bool) (os : list outcome) (pg : page)
  : page * list request :=
  match p with
  | Ret => (pg, [])
  | Throw _ => (pg, [])
  | Update f k => run k answer os (mkPage (f (ui pg)) (log pg) (inflight pg))
  | Emit e k => run k answer os (mkPage (ui pg) (log pg ++ [e]) (inflight pg))
  | Confirm msg k =>
      run (k answer) answer os
        (mkPage (ui pg) (log pg ++ [Confirmed msg answer]) (inflight pg))
  | Await r k =>
      match os with
      | [] => (mkPage (ui pg) (log pg) (inflight pg ++ [(r, k)]), [r])
      | o :: os' =>
          let '(pg', rs) := run (k o) answer os' pg in (pg', r :: rs)
      end
  end.

End Programs.

Arguments Ret {state}.
Arguments Throw {state} e.
Arguments Update {state} f k.
Arguments Emit {state} e k.
Arguments Confirm {state} msg k.
Arguments Await {state} r k.
Arguments seq {state} p q.
Arguments try_catch {state} p h.
Arguments finally {state} p q.
Arguments update {state} f.
Arguments emit {state} e.
Arguments alert {state} msg.
Arguments await_axios {state} r k.
Arguments reading {state} r k.
Arguments mkPage {state} ui log inflight.
Arguments ui {state} p.
Arguments log {state} p.
Arguments inflight {state} p.
Arguments launch {state} p answer pg.
Arguments settle {state} i o answer pg.
Arguments awaited {state} p answer.
Arguments run {state} p answer os pg.

Declare Scope prog_scope.
Delimit Scope prog_scope with prog.
Bind Scope prog_scope with prog.
Notation "p ;; q" := (seq p q) (at level 61, right associativity) : prog_scope.
Notation "'try' p 'catch' h 'finally' q" :=
  (finally (try_catch p h) q) (at level 60, p at next level, h at next level) : prog_scope.

End Async.

(** ** Number inputs *)

(** What the browser checks of an [<input type="number">] before it lets
    its form be submitted (the forms here have no [noValidate]). *)
Module Html.

Definition is_digit (c : ascii) : bool :=
  (48 <=? nat_of_ascii c)%nat && (nat_of_ascii c <=? 57)%nat.

Definition digit (c : ascii) : Z := Z.of_nat (nat_of_ascii c - 48).

(** The digits [s] starts with, read as a number after those read before
    ([acc]), their count added to [n], and what follows them. *)
Fixpoint digits (s : string) (acc : Z) (n : nat) : Z * nat * string :=
  match s with
  | EmptyString => (acc, n, s)
  | String c rest =>
      if is_digit c then digits rest (10 * acc + digit c)%Z (S n)
      else (acc, n, s)
  end.

(** A valid floating-point number: an optional "-", then digits, or digits
    and a fraction, or a fraction alone, then an optional exponent "e" or
    "E" with an optional sign and digits.  [Some (m, e)] stands for
    m * 10^e.  The value of a number input is one of these or empty. *)
Definition parse_number (s : string) : option (Z * Z) :=
  let '(negative, s1) :=
    match s with
    | String c rest => if Ascii.eqb c "-" then (true, rest) else (false, s)
    | EmptyString => (false, s)
    end in
  let '(whole, n_whole, s2) := digits s1 0%Z 0 in
  let '(mantissa, n_fraction, s3) :=
    match s2 with
    | String c rest =>
        if Ascii.eqb c "." then digits rest whole 0 else (whole, 0, s2)
    | EmptyString => (whole, 0, s2)
    end in
  let well_formed :=
    match s2 with
    | String c _ =>
        if Ascii.eqb c "." then (0 <? n_fraction)%nat else (0 <? n_whole)%nat
    | EmptyString => (0 <? n_whole)%nat
    end in
  let signed := (if negative then - mantissa else mantissa)%Z in
  if negb well_formed then None
  else
    match s3 with
    | EmptyString => Some (signed, (- Z.of_nat n_fraction)%Z)
    | String c rest =>
        if Ascii.eqb c "e" || Ascii.eqb c "E" then
          let '(minus, s4) :=
            match rest with
            | String c' rest' =>
                if Ascii.eqb c' "-" then (true, rest')
                else if Ascii.eqb c' "+" then (false, rest')
                else (false, rest)
            | EmptyString => (false, rest)
            end in
          let '(exponent, n_exponent, s5) := digits s4 0%Z 0 in
          match s5 with
          | EmptyString =>
              if (0 <? n_exponent)%nat then
                Some (signed,
                      ((if minus then - exponent else exponent)
                       - Z.of_nat n_fraction)%Z)
              else None
          | String _ _ => None
          end
        else None
    end.


(** No step mismatch: m * 10^e is a whole multiple of the step
    10^(-decimals), counted from a step base of zero (the inputs have no
    [min], and the [value] attribute they were first rendered with is
    empty). *)
Definition on_step (decimals m e : Z) : bool :=
  let shift := (e + decimals)%Z in
  if (0 <=? shift)%Z then true else Z.eqb (m mod 10 ^ (- shift)) 0.

(** An empty number input satisfies its constraints (it is not
    [required]); text that is no number is bad input. *)
Definition number_input_valid (decimals : Z) (text : string) : bool :=
  if String.eqb text "" then true
  else
    match parse_number text with
    | Some (m, e) => on_step decimals m e
    | None => false
    end.

End Html.

(** The server every request goes to. *)
Definition api : string := "http://127.0.0.1:8000".

(** ** client/app/patient/page.tsx *)

Module PatientUI.
Import Js Async.

Record state : Type := mkState {
  patients : value;
  loading : bool;
  sortBy : string;
  order : string;
  patientId : string;
  singlePatient : value;
  error : value;
  updateData : object
}.

(** The values [useState] is called with. *)
Definition initial : state :=
  {| patients := VArr [];
     loading := false;
     sortBy := "height";
     order := "asc";
     patientId := "";
     singlePatient := VNull;
     error := VStr "";
     updateData :=
       [("name", VStr ""); ("city", VStr ""); ("age", VStr "");
        ("gender", VStr ""); ("height", VStr ""); ("weight", VStr "")] |}.

Definition setPatients (v : value) : prog state :=
  update (fun s => mkState v (loading s) (sortBy s) (order s) (patientId s)
                     (singlePatient s) (error s) (updateData s)).
Definition setLoading (b : bool) : prog state :=
  update (fun s => mkState (patients s) b (sortBy s) (order s) (patientId s)
                     (singlePatient s) (error s) (updateData s)).
Definition setSortBy (v : string) : prog state :=
  update (fun s => mkState (patients s) (loading s) v (order s) (patientId s)
                     (singlePatient s) (error s) (updateData s)).
Definition setOrder (v : string) : prog state :=
  update (fun s => mkState (patients s) (loading s) (sortBy s) v (patientId s)
                     (singlePatient s) (error s) (updateData s)).
Definition setPatientId (v : string) : prog state :=
  update (fun s => mkState (patients s) (loading s) (sortBy s) (order s) v
                     (singlePatient s) (error s) (updateData s)).
Definition setSinglePatient (v : value) : prog state :=
  update (fun s => mkState (patients s) (loading s) (sortBy s) (order s)
                     (patientId s) v (error s) (updateData s)).
Definition setError (v : value) : prog state :=
  update (fun s => mkState (patients s) (loading s) (sortBy s) (order s)
                     (patientId s) (singlePatient s) v (updateData s)).
(** [setUpdateData] takes the next object or, as in [handleUpdateChange], a
    function of the previous one. *)
Definition setUpdateData (f : object -> object) : prog state :=
  update (fun s => mkState (patients s) (loading s) (sortBy s) (order s)
                     (patientId s) (singlePatient s) (error s)
                     (f (updateData s))).

Definition sort_request (s : state) : request :=
  mkRequest GET (api ++ "/sort")
    [("sort_by", sortBy s); ("order", order s)] None.
Definition search_request (s : state) : request :=
  mkRequest GET (api ++ "/patient/" ++ patientId s) [] None.
Definition update_request (s : state) : request :=
  mkRequest PUT (api ++ "/edit/" ++ patientId s) []
    (Some (VObj (updateData s))).
Definition delete_request (s : state) : request :=
  mkRequest DELETE (api ++ "/delete/" ++ patientId s) [] None.

Open Scope prog_scope.

Definition fetchSortedPatients (s : state) : prog state :=
  setLoading true ;;
  try
    (await_axios (sort_request s) (fun res_data =>
       setPatients res_data))
  catch (fun err =>
    emit (ConsoleError [CStr "Error fetching sorted:"; CExn err]))
  finally
    (setLoading false).

(** [err.response?.data?.detail] *)
Definition response_detail (err : exn) : value :=
  match err with
  | AxiosError (Some response_data) => get_opt response_data "detail"
  | AxiosError None => VUndefined
  | TypeError => VUndefined
  | ChildError => VUndefined
  end.

Definition handleSearch (s : state) : prog state :=
  if negb (truthy (VStr (patientId s))) then
    setError (VStr "Enter a valid patient ID.")
  else
    setError (VStr "") ;;
    setSinglePatient VNull ;;
    setLoading true ;;
    try
      (await_axios (search_request s) (fun res_data =>
         setSinglePatient res_data ;;
         reading (get res_data "name") (fun name =>
         reading (get res_data "city") (fun city =>
         reading (get res_data "age") (fun age =>
         reading (get res_data "gender") (fun gender =>
         reading (get res_data "height") (fun height =>
         reading (get res_data "weight") (fun weight =>
         setUpdateData (fun _ =>
           [("name", name); ("city", city); ("age", age);
            ("gender", gender); ("height", height);
            ("weight", weight)])))))))))
    catch (fun err =>
      setError (or_else (response_detail err) (VStr "Patient not found.")))
    finally
      (setLoading false).

(** [e.target.name] and [e.target.value] of the edited input. *)
Definition handleUpdateChange (name value : string) : prog state :=
  setUpdateData (fun prev => spread_set prev name (VStr value)).

Definition updatePatient (s : state) : prog state :=
  try_catch
    (await_axios (update_request s) (fun _ =>
       alert "Patient updated successfully!"))
    (fun err => alert "Failed to update patient.").

Definition deletePatient (s : state) : prog state :=
  Confirm ("Delete patient " ++ patientId s ++ "?") (fun confirmed =>
    if negb confirmed then Ret
    else
      try_catch
        (await_axios (delete_request s) (fun _ =>
           alert "Patient deleted successfully!" ;;
           setSinglePatient VNull ;;
           setPatientId ""))
        (fun err => alert "Deletion failed.")).

Close Scope prog_scope.

(** *** What the component returns *)

(** The card of the searched patient. *)
Record patient_card : Type := mkPatientCard {
  card_name : value;
  card_city : value;
  card_age : value;
  card_gender : value;
  card_height : value;
  card_weight : value;
  card_bmi : value;
  card_verdict : value
}.

(** One entry of the sorted list. *)
Record list_card : Type := mkListCard {
  item_name : value;
  item_height : value;
  item_weight : value;
  item_bmi : value;
  item_verdict : value
}.

(** The inputs of the edit form, by [name], with their [value]; the form
    ends with the Update and the Delete button. *)
Definition edit_form : Type := list (string * value).

Record view : Type := mkView {
  search_input : string;
  error_paragraph : child value;
  patient_panel : child patient_card;
  edit_panel : child edit_form;
  sortBy_select : string * list string;
  order_select : string * list string;
  loading_paragraph : child unit;
  patient_list : child (list list_card)
}.

(** The [option] values of the two selects. *)
Definition sortBy_options : list string := ["height"; "weight"; "bmi"].
Definition order_options : list string := ["asc"; "desc"].

(** The [name]s of the inputs of the edit form. *)
Definition edit_inputs : list string :=
  ["name"; "city"; "age"; "gender"; "height"; "weight"].

Definition render_patient_card (p : value) : exn + patient_card :=
  bind (get p "name") (fun name =>
  bind (get p "city") (fun city =>
  bind (get p "age") (fun age =>
  bind (get p "gender") (fun gender =>
  bind (get p "height") (fun height =>
  bind (get p "weight") (fun weight =>
  bind (get p "bmi") (fun bmi =>
  bind (get p "verdict") (fun verdict =>
  inr (mkPatientCard name city age gender height weight bmi verdict))))))))).

Definition render_list_card (p : value) : exn + list_card :=
  bind (get p "name") (fun name =>
  bind (get p "height") (fun height =>
  bind (get p "weight") (fun weight =>
  bind (get p "bmi") (fun bmi =>
  bind (get p "verdict") (fun verdict =>
  inr (mkListCard name height weight bmi verdict)))))).

(** [patients.map((p, i) => ...)]: only an array has [map]. *)
Definition render_patients (v : value) : exn + list list_card :=
  match v with
  | VArr items => traverse render_list_card items
  | _ => inl TypeError
  end.

Definition render_edit_form (o : object) : edit_form :=
  map (fun name => (name, lookup name o)) edit_inputs.

(** The element tree the component function returns. *)
Definition jsx (s : state) : exn + view :=
  bind (jsx_and (error s) (inr (error s))) (fun error_paragraph =>
  bind (jsx_and (singlePatient s) (render_patient_card (singlePatient s)))
    (fun patient_panel =>
  bind (jsx_and (singlePatient s) (inr (render_edit_form (updateData s))))
    (fun edit_panel =>
  bind (jsx_and (VBool (loading s)) (inr tt)) (fun loading_paragraph =>
  bind (jsx_and (VBool (negb (loading s))) (render_patients (patients s)))
    (fun patient_list =>
  inr {| search_input := patientId s;
         error_paragraph := error_paragraph;
         patient_panel := patient_panel;
         edit_panel := edit_panel;
         sortBy_select := (sortBy s, sortBy_options);
         order_select := (order s, order_options);
         loading_paragraph := loading_paragraph;
         patient_list := patient_list |}))))).

(** The children [{...}] of the card of the searched patient and of a card
    of the list, in the order of the source. *)
Definition card_children (c : patient_card) : list value :=
  [card_name c; card_city c; card_age c; card_gender c; card_height c;
   card_weight c; card_bmi c; card_verdict c].

Definition item_children (c : list_card) : list value :=
  [item_name c; item_height c; item_weight c; item_bmi c; item_verdict c].

Definition child_ok {A : Type} (ok : A -> bool) (c : child A) : bool :=
  match c with
  | Element a => ok a
  | Bare v => valid_child v
  end.

(** Whether React accepts every child of the tree.  The [value] of an input
    is an attribute, not a child: React writes whatever it is given. *)
Definition children_valid (v : view) : bool :=
  child_ok valid_child (error_paragraph v)
  && child_ok (fun c => forallb valid_child (card_children c))
       (patient_panel v)
  && child_ok (fun _ => true) (edit_panel v)
  && child_ok (fun _ => true) (loading_paragraph v)
  && child_ok (forallb (fun c => forallb valid_child (item_children c)))
       (patient_list v).

(** Rendering: the component function is run, then React builds the screen
    from the tree it returned and throws on a child it cannot display. *)
Definition render (s : state) : exn + view :=
  bind (jsx s) (fun v => if children_valid v then inr v else inl ChildError).

(** *** The component under its user and under axios *)

Inductive action : Type :=
| TypePatientId (value : string)
| ClickSearch
| EditField (name value : string)
| ClickUpdate
| ClickDelete
| SelectSortBy (value : string)
| SelectOrder (value : string)
| ClickApply.

(** The [onChange] or [onClick] of the control, as the render of state [s]
    attached it. *)
Definition handler (a : action) (s : state) : prog state :=
  match a with
  | TypePatientId v => setPatientId v
  | ClickSearch => handleSearch s
  | EditField name v => handleUpdateChange name v
  | ClickUpdate => updatePatient s
  | ClickDelete => deletePatient s
  | SelectSortBy v => setSortBy v
  | SelectOrder v => setOrder v
  | ClickApply => fetchSortedPatients s
  end.

Definition mem (v : string) (l : list string) : bool :=
  existsb (String.eqb v) l.

Definition is_element {A : Type} (c : child A) : bool :=
  match c with
  | Element _ => true
  | Bare _ => false
  end.

(** Whether the control of [a] is on the screen that state [s] renders. *)
Definition available (a : action) (s : state) : bool :=
  match render s with
  | inl _ => false
  | inr v =>
      match a with
      | TypePatientId _ | ClickSearch | ClickApply => true
      | EditField name _ => is_element (edit_panel v) && mem name edit_inputs
      | ClickUpdate | ClickDelete => is_element (edit_panel v)
      | SelectSortBy o => mem o (snd (sortBy_select v))
      | SelectOrder o => mem o (snd (order_select v))
      end
  end.

(** [useEffect(() => { fetchSortedPatients(); }, [sortBy, order])]: after
    the first render, and after each render in which a dependency differs
    from the render before ([prev]). *)
Definition useEffect (prev : option state) (answer : bool)
    (pg : page state) : page state :=
  let changed :=
    match prev with
    | None => true
    | Some old =>
        negb (String.eqb (sortBy old) (sortBy (ui pg)))
        || negb (String.eqb (order old) (order (ui pg)))
    end in
  if changed then launch (fetchSortedPatients (ui pg)) answer pg else pg.

Definition mount : page state := useEffect None false (mkPage initial [] []).

Inductive event : Type :=
| User (a : action)
| Settled (i : nat) (o : outcome).

Definition step (e : event) (answer : bool) (pg : page state) : page state :=
  useEffect (Some (ui pg)) answer
    match e with
    | User a => launch (handler a (ui pg)) answer pg
    | Settled i o => settle i o answer pg
    end.

Inductive reachable : page state -> Prop :=
| reach_mount : reachable mount
| reach_user a answer pg :
    reachable pg -> available a (ui pg) = true ->
    reachable (step (User a) answer pg)
| reach_settled i o answer pg :
    reachable pg -> i < List.length (inflight pg) ->
    reachable (step (Settled i o) answer pg).

End PatientUI.

(** ** The create form ([Home]) *)

Module Home.
Import Js Async.

Record state : Type := mkState {
  formData : object;
  loading : bool
}.

(** The object [useState] is called with, and [handleSubmit] resets to. *)
Definition empty_form : object :=
  [("id", VStr ""); ("name", VStr ""); ("gender", VStr "");
   ("city", VStr ""); ("age", VStr ""); ("height", VStr "");
   ("weight", VStr "")].

Definition initial : state := {| formData := empty_form; loading := false |}.

Definition setFormData (f : object -> object) : prog state :=
  update (fun s => mkState (f (formData s)) (loading s)).
Definition setLoading (b : bool) : prog state :=
  update (fun s => mkState (formData s) b).

Definition create_request (s : state) : request :=
  mkRequest POST (api ++ "/created") [] (Some (VObj (formData s))).

Open Scope prog_scope.

(** [e.target.name] and [e.target.value] of the edited input. *)
Definition handleChange (name value : string) : prog state :=
  setFormData (fun prev => spread_set prev name (VStr value)).

Definition handleSubmit (s : state) : prog state :=
  emit DefaultPrevented ;;
  setLoading true ;;
  try_catch
    (await_axios (create_request s) (fun res_data =>
       alert "Patient created successfully!" ;;
       emit (ConsoleLog [CVal res_data]) ;;
       setFormData (fun _ => empty_form)))
    (fun error =>
       alert "Submission failed" ;;
       emit (ConsoleError [CExn error])) ;;
  setLoading false.

Close Scope prog_scope.

(** The [name]s of the inputs of the form. *)
Definition form_inputs : list string :=
  ["id"; "name"; "gender"; "city"; "age"; "height"; "weight"].

Record view : Type := mkView {
  inputs : list (string * value);
  submit_disabled : bool;
  submit_label : string
}.

Definition render (s : state) : view :=
  {| inputs := map (fun name => (name, lookup name (formData s))) form_inputs;
     submit_disabled := loading s;
     submit_label := if loading s then "Submitting..." else "Submit Record" |}.

Inductive action : Type :=
| Change (name value : string)
| Submit.

Definition handler (a : action) (s : state) : prog state :=
  match a with
  | Change name v => handleChange name v
  | Submit => handleSubmit s
  end.

(** The [type="number"] inputs, each with the decimals of its [step]: 1
    by default, 0.01 for the height. *)
Definition number_inputs : list (string * Z) :=
  [("age", 0%Z); ("height", 2%Z); ("weight", 0%Z)].

(** The browser's validation of the form before its [submit] event.  A
    field that holds no string is passed over: the form never holds one. *)
Definition satisfies_constraints (o : object) : bool :=
  forallb
    (fun input : string * Z =>
       match lookup (fst input) o with
       | VStr text => Html.number_input_valid (snd input) text
       | _ => true
       end)
    number_inputs.

(** Whether the user can do [a] on the screen of state [s]: the form is
    submitted through its only button, which is [disabled={loading}], and
    only if the browser finds its number inputs valid. *)
Definition available (a : action) (s : state) : bool :=
  match a with
  | Change name _ => existsb (String.eqb name) (map fst (inputs (render s)))
  | Submit =>
      negb (submit_disabled (render s)) && satisfies_constraints (formData s)
  end.

Definition mount : page state := mkPage initial [] [].

Inductive event : Type :=
| User (a : action)
| Settled (i : nat) (o : outcome).

Definition step (e : event) (answer : bool) (pg : page state) : page state :=
  match e with
  | User a => launch (handler a (ui pg)) answer pg
  | Settled i o => settle i o answer pg
  end.

Inductive reachable : page state -> Prop :=
| reach_mount : reachable mount
| reach_user a answer pg :
    reachable pg -> available a (ui pg) = true ->
    reachable (step (User a) answer pg)
| reach_settled i o answer pg :
    reachable pg -> i < List.length (inflight pg) ->
    reachable (step (Settled i o) answer pg).

End Home.

Import Js Async.


Import Js Async.

(** * What the properties are stated with *)

(** The REST API as the specification lists it: [GET /sort?sort_by&order],
    [GET /patient/{id}], [PUT /edit/{id}], [DELETE /delete/{id}] and
    [POST /created]. *)
Inductive rest_endpoint : request -> Prop :=
| endpoint_sort sort_by order :
    rest_endpoint
      (mkRequest GET (api ++ "/sort")
         [("sort_by", sort_by); ("order", order)] None)
| endpoint_patient id :
    rest_endpoint (mkRequest GET (api ++ "/patient/" ++ id) [] None)
| endpoint_edit id body :
    rest_endpoint (mkRequest PUT (api ++ "/edit/" ++ id) [] (Some body))
| endpoint_delete id :
    rest_endpoint (mkRequest DELETE (api ++ "/delete/" ++ id) [] None)
| endpoint_created body :
    rest_endpoint (mkRequest POST (api ++ "/created") [] (Some body)).

(** The message of a failed search in the words of the claim: the [detail]
    field of the server's answer when it has one that is not falsy, else
    "Patient not found.". *)
Definition search_error (response : option value) : value :=
  match response with
  | Some body =>
      match body with
      | VObj fields =>
          if truthy (lookup "detail" fields) then lookup "detail" fields
          else VStr "Patient not found."
      | _ => VStr "Patient not found."
      end
  | None => VStr "Patient not found."
  end.





(** *** Sample data *)

Definition sample_patient : value :=
  VObj [("name", VStr "Ananya Verma"); ("city", VStr "Guwahati");
        ("age", VNum 28); ("gender", VStr "female"); ("height", VNum 1.5);
        ("weight", VNum 72); ("bmi", VNum 32); ("verdict", VStr "Obese")].

(** The patient page once the list is loaded and patient P001 was found. *)
Definition showing_P001 : PatientUI.state :=
  {| PatientUI.patients := VArr [sample_patient];
     PatientUI.loading := false;
     PatientUI.sortBy := "height";
     PatientUI.order := "asc";
     PatientUI.patientId := "P001";
     PatientUI.singlePatient := sample_patient;
     PatientUI.error := VStr "";
     PatientUI.updateData :=
       [("name", VStr "Ananya Verma"); ("city", VStr "Guwahati");
        ("age", VNum 28); ("gender", VStr "female"); ("height", VNum 1.5);
        ("weight", VNum 72)] |}.

(** The answer of the server to a search for an unknown id. *)
Definition not_found : option value :=
  Some (VObj [("detail", VStr "Patient not found")]).

(** The requests of the patient page whose handlers ([fetchSortedPatients]
    and [handleSearch]) drive the [loading] flag: its two [GET]s. *)
Definition drives_loading (r : request) : bool :=
  match method r with
  | GET => true
  | _ => false
  end.

(** A pending request of the patient page, with the rest of the handler
    that issued it. *)
Definition issued_by_handler
    (rk : request * (outcome -> prog PatientUI.state)) : Prop :=
  exists a s answer, awaited (PatientUI.handler a s) answer = [rk].

(** The flag is never stuck: while [loading] is true, a sort or a search is
    in flight, whose completion resets it. *)
Definition loading_has_cause (pg : page PatientUI.state) : Prop :=
  PatientUI.loading (ui pg) = true ->
  Exists (fun rk => drives_loading (fst rk) = true) (inflight pg).





(** What the edit form of the patient page holds: the six editable
    fields, in their order. *)
Definition six_fields (o : object) : Prop :=
  map fst o = PatientUI.edit_inputs.

(** A list item the cards can be rendered from: anything but [null] and
    [undefined]. *)
Definition present (p : value) : Prop := p <> VNull /\ p <> VUndefined.

Definition is_present (p : value) : bool :=
  match p with
  | VNull | VUndefined => false
  | _ => true
  end.

(** *** What a state must hold for the page to be displayed *)

(** The properties a card of the searched patient and a card of the list
    display. *)
Definition card_fields : list string :=
  ["name"; "city"; "age"; "gender"; "height"; "weight"; "bmi"; "verdict"].
Definition item_fields : list string :=
  ["name"; "height"; "weight"; "bmi"; "verdict"].

(** None of the properties [names] of [p] is an object (or an array
    holding one). *)
Definition fields_valid (names : list string) (p : value) : bool :=
  forallb (fun k => valid_child (get_opt p k)) names.

(** No record on display, or one whose fields can all be displayed. *)
Definition card_displayable (p : value) : bool :=
  negb (truthy p) || fields_valid card_fields p.

(** [patients] is an array ([patients.map] is a function) and none of its
    items is [null] or [undefined] (its name can be read). *)
Definition list_mappable (v : value) : bool :=
  match v with
  | VArr items => forallb is_present items
  | _ => false
  end.

(** ... and the fields of each item can all be displayed. *)
Definition list_displayable (v : value) : bool :=
  match v with
  | VArr items =>
      forallb (fun p => is_present p && fields_valid item_fields p) items
  | _ => false
  end.

Definition displayable (s : PatientUI.state) : bool :=
  valid_child (PatientUI.error s)
  && card_displayable (PatientUI.singlePatient s)
  && (PatientUI.loading s || list_displayable (PatientUI.patients s)).

(** Two answers to [GET /sort], and a page on which the answer to a sort by
    bmi is still awaited although the user has gone back to height and the
    list by height has arrived. *)
Definition other_patient : value :=
  VObj [("name", VStr "Ravi Mehta"); ("city", VStr "Mumbai");
        ("age", VNum 35); ("gender", VStr "male"); ("height", VNum 2);
        ("weight", VNum 80); ("bmi", VNum 20); ("verdict", VStr "Normal")].

Definition by_height : value := VArr [sample_patient; other_patient].
Definition by_bmi : value := VArr [other_patient; sample_patient].

Definition awaiting_the_older_sort : page PatientUI.state :=
  PatientUI.step (PatientUI.Settled 1 (Resolved by_height)) false
    (PatientUI.step (PatientUI.Settled 0 (Resolved by_height)) false
       (PatientUI.step (PatientUI.User (PatientUI.SelectSortBy "height"))
          false
          (PatientUI.step (PatientUI.User (PatientUI.SelectSortBy "bmi"))
             false PatientUI.mount))).

(** Two searches overlap: P001 is searched, P002 is searched while the
    first is pending, and the first is answered with its record. *)
Definition second_search_pending : page PatientUI.state :=
  PatientUI.step (PatientUI.Settled 1 (Resolved sample_patient)) false
    (PatientUI.step (PatientUI.User PatientUI.ClickSearch) false
       (PatientUI.step (PatientUI.User (PatientUI.TypePatientId "P002"))
          false
          (PatientUI.step (PatientUI.User PatientUI.ClickSearch) false
             (PatientUI.step
                (PatientUI.User (PatientUI.TypePatientId "P001")) false
                PatientUI.mount)))).

(** C9 as it is stated: whichever pending search fails, no record is left
    on display. *)
Definition failed_search_leaves_no_record (pg : page PatientUI.state)
  : Prop :=
  forall i rk response answer,
    nth_error (inflight pg) i = Some rk ->
    (exists id, url (fst rk) = api ++ "/patient/" ++ id) ->
    PatientUI.singlePatient
      (ui (PatientUI.step (PatientUI.Settled i (Rejected response)) answer
             pg))
    = VNull.





(** * Properties *)

(** ** Running a handler alone and running it inside the page agree *)

Section ProgramFacts.

Context {state : Type}.
Implicit Types (p : prog state) (pg : page state).

Lemma launch_inflight p answer pg :
  inflight (launch p answer pg) = (inflight pg ++ awaited p answer)%list.
Proof.
  revert pg; induction p as [| e | f k IH | e k IH | msg k IH | r k IH];
    intros pg; simpl.
  - now rewrite app_nil_r.
  - now rewrite app_nil_r.
  - now rewrite IH.
  - now rewrite IH.
  - now rewrite IH.
  - reflexivity.
Qed.


Lemma run_nil p answer pg :
  run p answer [] pg = (launch p answer pg, map fst (awaited p answer)).
Proof.
  revert pg; induction p as [| e | f k IH | e k IH | msg k IH | r k IH];
    intros pg; simpl; auto.
Qed.

Lemma nth_error_last {A : Type} (l : list A) (x : A) :
  nth_error (l ++ [x]) (List.length l) = Some x.
Proof. induction l; simpl; auto. Qed.

Lemma remove_nth_last {A : Type} (l : list A) (x : A) :
  remove_nth (List.length l) (l ++ [x]) = l.
Proof. induction l; simpl; auto. now f_equal. Qed.

Lemma nth_error_length {A : Type} (l : list A) :
  nth_error l (List.length l) = None.
Proof. induction l; simpl; auto. Qed.

(** Answering the request at once is letting axios settle it right after
    the handler was launched. *)
Lemma run_settle p answer o pg :
  fst (run p answer [o] pg)
  = settle (List.length (inflight pg)) o answer (launch p answer pg).
Proof.
  revert pg; induction p as [| e | f k IH | e k IH | msg k IH | r k IH];
    intros pg; simpl.
  - unfold settle. now rewrite nth_error_length.
  - unfold settle. now rewrite nth_error_length.
  - now rewrite IH.
  - now rewrite IH.
  - now rewrite IH.
  - unfold settle; simpl. rewrite nth_error_last, remove_nth_last.
    rewrite run_nil. now destruct pg.
Qed.

End ProgramFacts.

(** ** The requests of each handler *)

(** Case analysis on whatever still blocks the evaluation of a handler:
    the outcomes fed to it, the data the server sent, the user's answer. *)
Ltac case_blocked :=
  repeat match goal with
  | |- context [match ?x with _ => _ end] => is_var x; destruct x
  | |- context [if ?x then _ else _] => is_var x; destruct x
  | |- context [get ?x _] => is_var x; destruct x
  end.

Ltac eval_handler :=
  intros; simpl; repeat (progress (case_blocked; simpl)); try reflexivity.

Lemma fetchSortedPatients_requests s answer os pg :
  snd (run (PatientUI.fetchSortedPatients s) answer os pg)
  = [PatientUI.sort_request s].
Proof. eval_handler. Qed.

Lemma truthy_patientId s :
  truthy (VStr (PatientUI.patientId s))
  = negb (String.eqb (PatientUI.patientId s) "").
Proof. reflexivity. Qed.

Lemma handleSearch_requests s answer os pg :
  snd (run (PatientUI.handleSearch s) answer os pg)
  = if String.eqb (PatientUI.patientId s) "" then []
    else [PatientUI.search_request s].
Proof.
  unfold PatientUI.handleSearch. rewrite truthy_patientId.
  destruct (String.eqb (PatientUI.patientId s) ""); eval_handler.
Qed.

Lemma updatePatient_requests s answer os pg :
  snd (run (PatientUI.updatePatient s) answer os pg)
  = [PatientUI.update_request s].
Proof. eval_handler. Qed.

Lemma deletePatient_requests s answer os pg :
  snd (run (PatientUI.deletePatient s) answer os pg)
  = if answer then [PatientUI.delete_request s] else [].
Proof. eval_handler. Qed.

Lemma handleSubmit_requests s answer os pg :
  snd (run (Home.handleSubmit s) answer os pg) = [Home.create_request s].
Proof. eval_handler. Qed.

Lemma PatientUI_handler_requests a s answer os pg :
  Forall rest_endpoint (snd (run (PatientUI.handler a s) answer os pg)).
Proof.
  destruct a; simpl PatientUI.handler.
  - constructor.
  - rewrite handleSearch_requests.
    destruct (String.eqb (PatientUI.patientId s) ""); repeat constructor.
  - constructor.
  - rewrite updatePatient_requests. repeat constructor.
  - rewrite deletePatient_requests. destruct answer; repeat constructor.
  - constructor.
  - constructor.
  - rewrite fetchSortedPatients_requests. repeat constructor.
Qed.

Lemma Home_handler_requests a s answer os pg :
  Forall rest_endpoint (snd (run (Home.handler a s) answer os pg)).
Proof.
  destruct a; simpl Home.handler.
  - constructor.
  - rewrite handleSubmit_requests. repeat constructor.
Qed.

(** C1: every request a handler issues goes to one of the five endpoints,
    with the stated method: [fetchSortedPatients] issues [GET /sort] with the
    query parameters [sort_by] and [order], [handleSearch] issues
    [GET /patient/{id}] (or nothing, on an empty id), [updatePatient] issues
    [PUT /edit/{id}], [deletePatient] issues [DELETE /delete/{id}] (or
    nothing, when the user declines), [handleSubmit] issues [POST /created];
    whatever the control, its handler issues nothing else. *)
Theorem requests_target_the_five_endpoints :
  (forall s answer os pg,
     snd (run (PatientUI.fetchSortedPatients s) answer os pg)
     = [mkRequest GET (api ++ "/sort")
          [("sort_by", PatientUI.sortBy s); ("order", PatientUI.order s)]
          None])
  /\ (forall s answer os pg,
     snd (run (PatientUI.handleSearch s) answer os pg)
     = if String.eqb (PatientUI.patientId s) "" then []
       else [mkRequest GET (api ++ "/patient/" ++ PatientUI.patientId s)
               [] None])
  /\ (forall s answer os pg,
     snd (run (PatientUI.updatePatient s) answer os pg)
     = [mkRequest PUT (api ++ "/edit/" ++ PatientUI.patientId s) []
          (Some (VObj (PatientUI.updateData s)))])
  /\ (forall s answer os pg,
     snd (run (PatientUI.deletePatient s) answer os pg)
     = if answer
       then [mkRequest DELETE (api ++ "/delete/" ++ PatientUI.patientId s)
               [] None]
       else [])
  /\ (forall s answer os pg,
     snd (run (Home.handleSubmit s) answer os pg)
     = [mkRequest POST (api ++ "/created") []
          (Some (VObj (Home.formData s)))])
  /\ (forall a s answer os pg,
     Forall rest_endpoint (snd (run (PatientUI.handler a s) answer os pg)))
  /\ (forall a s answer os pg,
     Forall rest_endpoint (snd (run (Home.handler a s) answer os pg))).
Proof.
  repeat split; intros.
  - apply fetchSortedPatients_requests.
  - apply handleSearch_requests.
  - apply updatePatient_requests.
  - apply deletePatient_requests.
  - apply handleSubmit_requests.
  - apply PatientUI_handler_requests.
  - apply Home_handler_requests.
Qed.

(** ** One user action, one request *)

Lemma useEffect_unchanged s answer (pg : page PatientUI.state) :
  PatientUI.sortBy (ui pg) = PatientUI.sortBy s ->
  PatientUI.order (ui pg) = PatientUI.order s ->
  PatientUI.useEffect (Some s) answer pg = pg.
Proof.
  intros H1 H2. unfold PatientUI.useEffect.
  now rewrite H1, H2, !String.eqb_refl.
Qed.



Lemma remove_nth_out_of_range {A : Type} (l : list A) i :
  nth_error l i = None -> remove_nth i l = l.
Proof.
  revert i; induction l as [| x l IH]; intros [| i]; simpl; auto.
  - discriminate.
  - intros H. now rewrite IH.
Qed.

Lemma settle_inflight {state : Type} i o answer (pg : page state) :
  exists new,
    inflight (settle i o answer pg) = (remove_nth i (inflight pg) ++ new)%list.
Proof.
  unfold settle. destruct (nth_error (inflight pg) i) as [[r k] |] eqn:E.
  - rewrite launch_inflight. simpl. eauto.
  - exists []. now rewrite app_nil_r, remove_nth_out_of_range.
Qed.

(** ** What is rendered *)

Lemma render_jsx s v :
  PatientUI.render s = inr v ->
  PatientUI.jsx s = inr v /\ PatientUI.children_valid v = true.
Proof.
  unfold PatientUI.render.
  destruct (PatientUI.jsx s) as [e | v0]; simpl; [discriminate |].
  destruct (PatientUI.children_valid v0) eqn:E; [| discriminate].
  intros H; inversion H; subst. auto.
Qed.

Lemma traverse_Forall2 {A B : Type} (f : A -> exn + B) items ys :
  traverse f items = inr ys -> Forall2 (fun x y => f x = inr y) items ys.
Proof.
  revert ys; induction items as [| x items IH]; intros ys; simpl.
  - intros H; inversion H; constructor.
  - destruct (f x) as [e | y] eqn:Ex; simpl; [discriminate |].
    destruct (traverse f items) as [e | ys'] eqn:Et; simpl; [discriminate |].
    intros H; inversion H; subst. constructor; auto.
Qed.

Lemma render_list_card_fields p c :
  PatientUI.render_list_card p = inr c ->
  get p "name" = inr (PatientUI.item_name c)
  /\ get p "height" = inr (PatientUI.item_height c)
  /\ get p "weight" = inr (PatientUI.item_weight c)
  /\ get p "bmi" = inr (PatientUI.item_bmi c)
  /\ get p "verdict" = inr (PatientUI.item_verdict c).
Proof.
  destruct p; simpl; intros H; inversion H; subst; simpl; repeat split.
Qed.

Lemma render_patient_card_fields p c :
  PatientUI.render_patient_card p = inr c ->
  get p "name" = inr (PatientUI.card_name c)
  /\ get p "city" = inr (PatientUI.card_city c)
  /\ get p "age" = inr (PatientUI.card_age c)
  /\ get p "gender" = inr (PatientUI.card_gender c)
  /\ get p "height" = inr (PatientUI.card_height c)
  /\ get p "weight" = inr (PatientUI.card_weight c)
  /\ get p "bmi" = inr (PatientUI.card_bmi c)
  /\ get p "verdict" = inr (PatientUI.card_verdict c).
Proof.
  destruct p; simpl; intros H; inversion H; subst; simpl; repeat split.
Qed.

(** The dynamic parts of a render that did not throw. *)
Lemma render_inv s v :
  PatientUI.render s = inr v ->
  PatientUI.error_paragraph v
  = (if truthy (PatientUI.error s) then Element (PatientUI.error s)
     else Bare (PatientUI.error s))
  /\ (forall c, PatientUI.patient_panel v = Element c ->
        PatientUI.render_patient_card (PatientUI.singlePatient s) = inr c)
  /\ (forall cards, PatientUI.patient_list v = Element cards ->
        PatientUI.loading s = false
        /\ PatientUI.render_patients (PatientUI.patients s) = inr cards).
Proof.
  intros Hrender. apply render_jsx in Hrender. destruct Hrender as [Hrender _].
  revert Hrender. unfold PatientUI.jsx, jsx_and. simpl.
  destruct (truthy (PatientUI.error s)); simpl;
  destruct (truthy (PatientUI.singlePatient s)); simpl;
  try destruct (PatientUI.render_patient_card (PatientUI.singlePatient s));
  simpl; try discriminate;
  destruct (PatientUI.loading s); simpl;
  try destruct (PatientUI.render_patients (PatientUI.patients s));
  simpl; try discriminate;
  intros H; inversion H; subst; simpl;
  (split; [reflexivity |]); split; intros ? E; inversion E; subst; auto.
Qed.

(** Without a patient there is neither a card nor an edit form. *)
Lemma render_no_patient s v :
  PatientUI.render s = inr v ->
  truthy (PatientUI.singlePatient s) = false ->
  PatientUI.patient_panel v = Bare (PatientUI.singlePatient s)
  /\ PatientUI.edit_panel v = Bare (PatientUI.singlePatient s).
Proof.
  intros H Hf. apply render_jsx in H. destruct H as [H _].
  unfold PatientUI.jsx, jsx_and in H. rewrite Hf in H.
  simpl in H.
  destruct (truthy (PatientUI.error s)); simpl in H;
  destruct (PatientUI.loading s); simpl in H;
  try destruct (PatientUI.render_patients (PatientUI.patients s));
  simpl in H; try discriminate;
  inversion H; subst; simpl; split; reflexivity.
Qed.

(** ** Searching *)

Lemma patientId_empty s :
  PatientUI.patientId s = "" ->
  PatientUI.handleSearch s
  = PatientUI.setError (VStr "Enter a valid patient ID.").
Proof.
  intros H. unfold PatientUI.handleSearch.
  now rewrite truthy_patientId, H.
Qed.

Lemma patientId_not_empty s :
  PatientUI.patientId s <> "" ->
  negb (truthy (VStr (PatientUI.patientId s))) = false.
Proof.
  intros H. rewrite truthy_patientId.
  destruct (String.eqb_spec (PatientUI.patientId s) ""); [contradiction | reflexivity].
Qed.

(** C8: a search with an empty [patientId] issues no request, sets the
    error message to "Enter a valid patient ID.", and leaves
    [singlePatient], [updateData], [patients] and [loading] as they were. *)
Theorem handleSearch_empty_patientId s answer os pg :
  PatientUI.patientId s = "" ->
  snd (run (PatientUI.handleSearch s) answer os pg) = []
  /\ inflight (fst (run (PatientUI.handleSearch s) answer os pg))
     = inflight pg
  /\ PatientUI.error (ui (fst (run (PatientUI.handleSearch s) answer os pg)))
     = VStr "Enter a valid patient ID."
  /\ PatientUI.singlePatient
       (ui (fst (run (PatientUI.handleSearch s) answer os pg)))
     = PatientUI.singlePatient (ui pg)
  /\ PatientUI.updateData
       (ui (fst (run (PatientUI.handleSearch s) answer os pg)))
     = PatientUI.updateData (ui pg)
  /\ PatientUI.patients
       (ui (fst (run (PatientUI.handleSearch s) answer os pg)))
     = PatientUI.patients (ui pg)
  /\ PatientUI.loading
       (ui (fst (run (PatientUI.handleSearch s) answer os pg)))
     = PatientUI.loading (ui pg).
Proof.
  intros H. rewrite (patientId_empty s H). simpl. repeat split.
Qed.

Lemma handleSearch_empty_patientId_witness :
  snd (run (PatientUI.handleSearch PatientUI.initial) false []
         PatientUI.mount) = []
  /\ PatientUI.error
       (ui (fst (run (PatientUI.handleSearch PatientUI.initial) false []
                   PatientUI.mount)))
     = VStr "Enter a valid patient ID.".
Proof.
  destruct (handleSearch_empty_patientId PatientUI.initial false []
              PatientUI.mount eq_refl) as (H1 & _ & H2 & _).
  exact (conj H1 H2).
Defined.

Lemma search_error_detail response :
  or_else (PatientUI.response_detail (AxiosError response))
    (VStr "Patient not found.")
  = search_error response.
Proof. destruct response as [[] |]; reflexivity. Qed.

Lemma search_error_truthy response : truthy (search_error response) = true.
Proof.
  destruct response as [[] |]; try reflexivity. simpl.
  destruct (truthy (lookup "detail" fields)) eqn:E; auto.
Qed.

(** The state a rejected search leaves. *)
Lemma handleSearch_rejected s answer response pg :
  PatientUI.patientId s <> "" ->
  ui (fst (run (PatientUI.handleSearch s) answer [Rejected response] pg))
  = {| PatientUI.patients := PatientUI.patients (ui pg);
       PatientUI.loading := false;
       PatientUI.sortBy := PatientUI.sortBy (ui pg);
       PatientUI.order := PatientUI.order (ui pg);
       PatientUI.patientId := PatientUI.patientId (ui pg);
       PatientUI.singlePatient := VNull;
       PatientUI.error := search_error response;
       PatientUI.updateData := PatientUI.updateData (ui pg) |}.
Proof.
  intros H. unfold PatientUI.handleSearch.
  rewrite (patientId_not_empty s H).
  destruct response as [[] |]; reflexivity.
Qed.

(** ** The patient page, step by step *)

(** The synchronous part of a handler of the patient page. *)
Lemma PatientUI_launch_handler_state a answer (pg : page PatientUI.state) :
  let pg' := launch (PatientUI.handler a (ui pg)) answer pg in
  PatientUI.patients (ui pg') = PatientUI.patients (ui pg)
  /\ (PatientUI.singlePatient (ui pg') = PatientUI.singlePatient (ui pg)
      \/ PatientUI.singlePatient (ui pg') = VNull)
  /\ ((inflight pg' = inflight pg
       /\ PatientUI.loading (ui pg') = PatientUI.loading (ui pg))
      \/ (PatientUI.sortBy (ui pg') = PatientUI.sortBy (ui pg)
          /\ PatientUI.order (ui pg') = PatientUI.order (ui pg)
          /\ exists rk,
               inflight pg' = (inflight pg ++ [rk])%list
               /\ issued_by_handler rk
               /\ PatientUI.loading (ui pg')
                  = if drives_loading (fst rk) then true
                    else PatientUI.loading (ui pg))).
Proof.
  assert (Hissued : forall rk,
            awaited (PatientUI.handler a (ui pg)) answer = [rk] ->
            issued_by_handler rk)
    by (intros rk H; exists a, (ui pg), answer; exact H).
  revert Hissued.
  destruct a; simpl PatientUI.handler; cbv zeta; intros Hissued.
  - simpl; auto.
  - revert Hissued. unfold PatientUI.handleSearch. rewrite truthy_patientId.
    destruct (String.eqb (PatientUI.patientId (ui pg)) ""); intros Hissued.
    + simpl; auto.
    + simpl. split; [reflexivity |]. split; [now right |]. right.
      split; [reflexivity |]. split; [reflexivity |].
      eexists. split; [reflexivity |]. split; [now apply Hissued |].
      reflexivity.
  - simpl; auto.
  - simpl. split; [reflexivity |]. split; [now left |]. right.
    split; [reflexivity |]. split; [reflexivity |].
    eexists. split; [reflexivity |]. split; [now apply Hissued |].
    reflexivity.
  - destruct answer.
    + simpl. split; [reflexivity |]. split; [now left |]. right.
      split; [reflexivity |]. split; [reflexivity |].
      eexists. split; [reflexivity |]. split; [now apply Hissued |].
      reflexivity.
    + simpl; auto.
  - simpl; auto.
  - simpl; auto.
  - simpl. split; [reflexivity |]. split; [now left |]. right.
    split; [reflexivity |]. split; [reflexivity |].
    eexists. split; [reflexivity |]. split; [now apply Hissued |].
    reflexivity.
Qed.

(** The rest of a handler of the patient page, once its request settled:
    it awaits nothing more, leaves [sortBy] and [order] alone, resets
    [loading] if it is a sort or a search, and stores nothing in [patients]
    or [singlePatient] but the data of the answer (or [null]). *)
Lemma PatientUI_rest_of_handler rk o answer (pg : page PatientUI.state) :
  issued_by_handler rk ->
  let pg' := launch (snd rk o) answer pg in
  inflight pg' = inflight pg
  /\ PatientUI.sortBy (ui pg') = PatientUI.sortBy (ui pg)
  /\ PatientUI.order (ui pg') = PatientUI.order (ui pg)
  /\ PatientUI.loading (ui pg')
     = (if drives_loading (fst rk) then false else PatientUI.loading (ui pg))
  /\ (PatientUI.patients (ui pg') = PatientUI.patients (ui pg)
      \/ exists d, o = Resolved d /\ PatientUI.patients (ui pg') = d)
  /\ (PatientUI.singlePatient (ui pg') = PatientUI.singlePatient (ui pg)
      \/ PatientUI.singlePatient (ui pg') = VNull
      \/ exists d, o = Resolved d /\ PatientUI.singlePatient (ui pg') = d).
Proof.
  intros (a & s & answer0 & H). cbv zeta.
  destruct a; simpl PatientUI.handler in H.
  - discriminate H.
  - unfold PatientUI.handleSearch in H. rewrite truthy_patientId in H.
    destruct (String.eqb (PatientUI.patientId s) ""); [discriminate H |].
    simpl in H. inversion H; subst rk; clear H.
    destruct o as [d | response]; [destruct d |]; simpl;
      repeat split; eauto 6.
  - discriminate H.
  - simpl in H. inversion H; subst rk; clear H.
    destruct o; simpl; repeat split; auto.
  - destruct answer0; [| discriminate H].
    simpl in H. inversion H; subst rk; clear H.
    destruct o; simpl; repeat split; auto.
  - discriminate H.
  - discriminate H.
  - simpl in H. inversion H; subst rk; clear H.
    destruct o; simpl; repeat split; eauto.
Qed.

Lemma Forall_remove_nth {A : Type} (P : A -> Prop) i l :
  Forall P l -> Forall P (remove_nth i l).
Proof.
  intros H; revert i; induction H as [| x l Hx Hl IH]; intros [| i]; simpl;
    auto.
Qed.

Lemma Exists_remove_nth {A : Type} (P : A -> Prop) i l x :
  nth_error l i = Some x -> ~ P x -> Exists P l -> Exists P (remove_nth i l).
Proof.
  revert i; induction l as [| y l IH]; intros [| i]; simpl; try discriminate.
  - intros E Hx H. inversion E; subst. inversion H; subst; [contradiction | auto].
  - intros E Hx H. inversion H; subst; [now left | right; eauto].
Qed.

Lemma useEffect_cases prev answer (pg : page PatientUI.state) :
  PatientUI.useEffect prev answer pg = pg
  \/ exists rk,
       issued_by_handler rk
       /\ fst rk = PatientUI.sort_request (ui pg)
       /\ drives_loading (fst rk) = true
       /\ inflight (PatientUI.useEffect prev answer pg)
          = (inflight pg ++ [rk])%list
       /\ PatientUI.loading (ui (PatientUI.useEffect prev answer pg)) = true
       /\ PatientUI.patients (ui (PatientUI.useEffect prev answer pg))
          = PatientUI.patients (ui pg)
       /\ PatientUI.singlePatient (ui (PatientUI.useEffect prev answer pg))
          = PatientUI.singlePatient (ui pg).
Proof.
  unfold PatientUI.useEffect.
  match goal with |- context [if ?c then _ else _] => destruct c end.
  - right. eexists. split.
    + exists PatientUI.ClickApply, (ui pg), answer. reflexivity.
    + simpl. repeat split.
  - now left.
Qed.

Lemma PatientUI_step_facts e answer (pg : page PatientUI.state) :
  Forall issued_by_handler (inflight pg) ->
  let pg' := PatientUI.step e answer pg in
  Forall issued_by_handler (inflight pg')
  /\ (PatientUI.patients (ui pg') = PatientUI.patients (ui pg)
      \/ exists i d, e = PatientUI.Settled i (Resolved d)
                     /\ PatientUI.patients (ui pg') = d)
  /\ (PatientUI.singlePatient (ui pg') = PatientUI.singlePatient (ui pg)
      \/ PatientUI.singlePatient (ui pg') = VNull
      \/ exists i d, e = PatientUI.Settled i (Resolved d)
                     /\ PatientUI.singlePatient (ui pg') = d)
  /\ (loading_has_cause pg -> loading_has_cause pg').
Proof.
  intros Hinv. cbv zeta. unfold PatientUI.step.
  (* the handler, or the rest of one *)
  assert (Hmid : exists mid,
            mid = match e with
                  | PatientUI.User a =>
                      launch (PatientUI.handler a (ui pg)) answer pg
                  | PatientUI.Settled i o => settle i o answer pg
                  end
            /\ Forall issued_by_handler (inflight mid)
            /\ (PatientUI.patients (ui mid) = PatientUI.patients (ui pg)
                \/ exists i d, e = PatientUI.Settled i (Resolved d)
                               /\ PatientUI.patients (ui mid) = d)
            /\ (PatientUI.singlePatient (ui mid)
                = PatientUI.singlePatient (ui pg)
                \/ PatientUI.singlePatient (ui mid) = VNull
                \/ exists i d, e = PatientUI.Settled i (Resolved d)
                               /\ PatientUI.singlePatient (ui mid) = d)
            /\ (loading_has_cause pg -> loading_has_cause mid)).
  { eexists; split; [reflexivity |]. destruct e as [a | i o].
    - destruct (PatientUI_launch_handler_state a answer pg)
        as (Hp & Hsp & [[Hin Hl] | (_ & _ & rk & Hin & Hrk & Hl)]).
      + rewrite Hin. repeat split; auto.
        * destruct Hsp; auto.
        * unfold loading_has_cause. now rewrite Hin, Hl.
      + rewrite Hin. repeat split; auto.
        * apply Forall_app; auto.
        * destruct Hsp; auto.
        * unfold loading_has_cause. rewrite Hin, Hl. intros Hc Ht.
          apply Exists_app.
          destruct (drives_loading (fst rk)) eqn:Ed; [right | left; auto].
          now constructor.
    - unfold settle.
      destruct (nth_error (inflight pg) i) as [[r k] |] eqn:E.
      + assert (Hrk : issued_by_handler (r, k)).
        { rewrite Forall_forall in Hinv. apply Hinv.
          eapply nth_error_In; eauto. }
        destruct (PatientUI_rest_of_handler (r, k) o answer
                    (mkPage (ui pg) (log pg) (remove_nth i (inflight pg)))
                    Hrk) as (Hin & _ & _ & Hl & Hp & Hsp).
        simpl in Hin, Hl, Hp, Hsp. simpl snd.
        rewrite Hin. repeat split.
        * simpl. now apply Forall_remove_nth.
        * destruct Hp as [Hp | (d & -> & Hp)]; [now left | right; eauto].
        * destruct Hsp as [Hsp | [Hsp | (d & -> & Hsp)]]; auto.
          right; right; eauto.
        * unfold loading_has_cause. rewrite Hin, Hl. simpl.
          destruct (drives_loading r) eqn:Ed; [discriminate |].
          intros Hc Ht. eapply Exists_remove_nth; eauto.
          simpl. now rewrite Ed.
      + repeat split; auto. }
  destruct Hmid as (mid & <- & Hf & Hp & Hsp & Hc).
  destruct (useEffect_cases (Some (ui pg)) answer mid)
    as [-> | (rk & Hrk & _ & Hd & Hin & Hl & Hp' & Hsp')].
  - repeat split; auto.
  - rewrite Hin, Hp', Hsp'. repeat split; auto.
    + apply Forall_app; auto.
    + intros _ _. rewrite Hin. apply Exists_app. right. now constructor.
Qed.

Lemma PatientUI_reachable_invariant pg :
  PatientUI.reachable pg ->
  Forall issued_by_handler (inflight pg) /\ loading_has_cause pg.
Proof.
  induction 1 as [| a answer pg Hr [IH1 IH2] Ha | i o answer pg Hr [IH1 IH2] Hi].
  - split.
    + repeat constructor.
      exists PatientUI.ClickApply, PatientUI.initial, false. reflexivity.
    + intros _. now constructor.
  - destruct (PatientUI_step_facts (PatientUI.User a) answer pg IH1)
      as (H1 & _ & _ & H2). auto.
  - destruct (PatientUI_step_facts (PatientUI.Settled i o) answer pg IH1)
      as (H1 & _ & _ & H2). auto.
Qed.

(** C3: the client computes neither a BMI nor a verdict.  The [bmi] and
    the [verdict] of the patient card and of each card of the list are the
    fields of [singlePatient] and of the items of [patients]; these two
    cells start as [null] and [[]] and no step of the page stores anything
    in them but the data of a server answer (or [null]); a resolved search
    stores its answer in [singlePatient] and a resolved sort its answer in
    [patients]. *)
Theorem bmi_and_verdict_are_the_servers :
  (forall s v card,
     PatientUI.render s = inr v ->
     PatientUI.patient_panel v = Element card ->
     get (PatientUI.singlePatient s) "bmi" = inr (PatientUI.card_bmi card)
     /\ get (PatientUI.singlePatient s) "verdict"
        = inr (PatientUI.card_verdict card))
  /\ (forall s v cards,
     PatientUI.render s = inr v ->
     PatientUI.patient_list v = Element cards ->
     exists items,
       PatientUI.patients s = VArr items
       /\ Forall2
            (fun p c =>
               get p "bmi" = inr (PatientUI.item_bmi c)
               /\ get p "verdict" = inr (PatientUI.item_verdict c))
            items cards)
  /\ (PatientUI.patients (ui PatientUI.mount) = VArr []
      /\ PatientUI.singlePatient (ui PatientUI.mount) = VNull)
  /\ (forall e answer pg,
     PatientUI.reachable pg ->
     (PatientUI.patients (ui (PatientUI.step e answer pg))
      = PatientUI.patients (ui pg)
      \/ exists i d,
           e = PatientUI.Settled i (Resolved d)
           /\ PatientUI.patients (ui (PatientUI.step e answer pg)) = d)
     /\ (PatientUI.singlePatient (ui (PatientUI.step e answer pg))
         = PatientUI.singlePatient (ui pg)
         \/ PatientUI.singlePatient (ui (PatientUI.step e answer pg)) = VNull
         \/ exists i d,
              e = PatientUI.Settled i (Resolved d)
              /\ PatientUI.singlePatient (ui (PatientUI.step e answer pg))
                 = d))
  /\ (forall s answer d pg,
     PatientUI.patientId s <> "" ->
     PatientUI.singlePatient
       (ui (fst (run (PatientUI.handleSearch s) answer [Resolved d] pg)))
     = d)
  /\ (forall s answer d pg,
     PatientUI.patients
       (ui (fst (run (PatientUI.fetchSortedPatients s) answer [Resolved d]
                   pg)))
     = d).
Proof.
  split; [| split; [| split; [| split; [| split]]]].
  - intros s v card Hr Hc.
    destruct (render_inv s v Hr) as (_ & Hcard & _).
    destruct (render_patient_card_fields _ _ (Hcard card Hc))
      as (_ & _ & _ & _ & _ & _ & Hb & Hv).
    auto.
  - intros s v cards Hr Hc.
    destruct (render_inv s v Hr) as (_ & _ & Hlist).
    destruct (Hlist cards Hc) as [_ Hp].
    destruct (PatientUI.patients s) as [ | | | | | items | ];
      try discriminate Hp.
    exists items. split; [reflexivity |].
    apply traverse_Forall2 in Hp. clear - Hp.
    induction Hp as [| p c items cards Hpc _ IH]; constructor; auto.
    destruct (render_list_card_fields p c Hpc) as (_ & _ & _ & Hb & Hv).
    auto.
  - split; reflexivity.
  - intros e answer pg Hr.
    destruct (PatientUI_reachable_invariant pg Hr) as [Hinv _].
    destruct (PatientUI_step_facts e answer pg Hinv) as (_ & Hp & Hsp & _).
    auto.
  - intros s answer d pg H. unfold PatientUI.handleSearch.
    rewrite (patientId_not_empty s H). destruct d; reflexivity.
  - intros. reflexivity.
Qed.

Lemma bmi_and_verdict_are_the_servers_witness :
  exists v card,
    PatientUI.render showing_P001 = inr v
    /\ PatientUI.patient_panel v = Element card
    /\ get sample_patient "bmi" = inr (PatientUI.card_bmi card)
    /\ PatientUI.card_bmi card = VNum 32.
Proof.
  eexists. eexists.
  split; [vm_compute; reflexivity |].
  split; [reflexivity |].
  split; [| reflexivity].
  refine (proj1 (proj1 bmi_and_verdict_are_the_servers showing_P001 _ _ _ _)).
  - vm_compute; reflexivity.
  - reflexivity.
Defined.

(** ** Forwarding the form state *)

Lemma PatientUI_step_ClickUpdate answer (pg : page PatientUI.state) :
  map fst (inflight (PatientUI.step (PatientUI.User PatientUI.ClickUpdate)
                       answer pg))
  = (map fst (inflight pg) ++ [PatientUI.update_request (ui pg)])%list.
Proof.
  unfold PatientUI.step. rewrite useEffect_unchanged by reflexivity.
  simpl. now rewrite map_app.
Qed.

Lemma Home_step_Submit answer (pg : page Home.state) :
  map fst (inflight (Home.step (Home.User Home.Submit) answer pg))
  = (map fst (inflight pg) ++ [Home.create_request (ui pg)])%list.
Proof. simpl. now rewrite map_app. Qed.

(** C4: the body of the [PUT] of [updatePatient] is the [updateData] object
    and the body of the [POST] of [handleSubmit] is the [formData] object,
    as the render that attached the handler holds them, with nothing
    added, removed or changed. *)
Theorem mutating_handlers_forward_form_state :
  (forall s answer os pg,
     map data (snd (run (PatientUI.updatePatient s) answer os pg))
     = [Some (VObj (PatientUI.updateData s))])
  /\ (forall s answer os pg,
     map data (snd (run (Home.handleSubmit s) answer os pg))
     = [Some (VObj (Home.formData s))])
  /\ (forall answer pg,
     map fst
       (inflight (PatientUI.step (PatientUI.User PatientUI.ClickUpdate)
                    answer pg))
     = (map fst (inflight pg)
        ++ [mkRequest PUT (api ++ "/edit/" ++ PatientUI.patientId (ui pg)) []
              (Some (VObj (PatientUI.updateData (ui pg))))])%list)
  /\ (forall answer pg,
     map fst (inflight (Home.step (Home.User Home.Submit) answer pg))
     = (map fst (inflight pg)
        ++ [mkRequest POST (api ++ "/created") []
              (Some (VObj (Home.formData (ui pg))))])%list).
Proof.
  repeat split; intros.
  - now rewrite updatePatient_requests.
  - now rewrite handleSubmit_requests.
  - apply PatientUI_step_ClickUpdate.
  - apply Home_step_Submit.
Qed.

(** ** The create form *)


(** ** Sorting *)

Lemma render_selects s v :
  PatientUI.render s = inr v ->
  PatientUI.sortBy_select v = (PatientUI.sortBy s, PatientUI.sortBy_options)
  /\ PatientUI.order_select v = (PatientUI.order s, PatientUI.order_options).
Proof.
  intros Hrender. apply render_jsx in Hrender. destruct Hrender as [Hrender _].
  revert Hrender. unfold PatientUI.jsx, jsx_and. simpl.
  destruct (truthy (PatientUI.error s)); simpl;
  destruct (truthy (PatientUI.singlePatient s)); simpl;
  try destruct (PatientUI.render_patient_card (PatientUI.singlePatient s));
  simpl; try discriminate;
  destruct (PatientUI.loading s); simpl;
  try destruct (PatientUI.render_patients (PatientUI.patients s));
  simpl; try discriminate;
  intros H; inversion H; subst; simpl; split; reflexivity.
Qed.

Lemma mem_In v l : PatientUI.mem v l = true -> In v l.
Proof.
  unfold PatientUI.mem. rewrite existsb_exists.
  intros (x & Hx & E). apply String.eqb_eq in E. now subst.
Qed.

Lemma useEffect_deps prev answer (pg : page PatientUI.state) :
  PatientUI.sortBy (ui (PatientUI.useEffect prev answer pg))
  = PatientUI.sortBy (ui pg)
  /\ PatientUI.order (ui (PatientUI.useEffect prev answer pg))
     = PatientUI.order (ui pg).
Proof.
  unfold PatientUI.useEffect.
  match goal with |- context [if ?c then _ else _] => destruct c end;
    split; reflexivity.
Qed.

(** Only the two selects change [sortBy] and [order]. *)
Lemma PatientUI_step_deps e answer (pg : page PatientUI.state) :
  Forall issued_by_handler (inflight pg) ->
  (PatientUI.sortBy (ui (PatientUI.step e answer pg))
   = PatientUI.sortBy (ui pg)
   \/ exists v, e = PatientUI.User (PatientUI.SelectSortBy v)
                /\ PatientUI.sortBy (ui (PatientUI.step e answer pg)) = v)
  /\ (PatientUI.order (ui (PatientUI.step e answer pg))
      = PatientUI.order (ui pg)
      \/ exists v, e = PatientUI.User (PatientUI.SelectOrder v)
                   /\ PatientUI.order (ui (PatientUI.step e answer pg)) = v).
Proof.
  intros Hinv. unfold PatientUI.step.
  match goal with |- context [PatientUI.useEffect ?p answer ?m] =>
    destruct (useEffect_deps p answer m) as [-> ->]
  end.
  destruct e as [a | i o].
  - destruct a; simpl PatientUI.handler;
      try (split; left; reflexivity).
    + unfold PatientUI.handleSearch. rewrite truthy_patientId.
      destruct (String.eqb (PatientUI.patientId (ui pg)) "");
        split; left; reflexivity.
    + destruct answer; split; left; reflexivity.
    + split; [right; eauto | left; reflexivity].
    + split; [left; reflexivity | right; eauto].
  - unfold settle.
    destruct (nth_error (inflight pg) i) as [[r k] |] eqn:E.
    + assert (Hrk : issued_by_handler (r, k)).
      { rewrite Forall_forall in Hinv. apply Hinv.
        eapply nth_error_In; eauto. }
      destruct (PatientUI_rest_of_handler (r, k) o answer
                  (mkPage (ui pg) (log pg) (remove_nth i (inflight pg)))
                  Hrk) as (_ & Hs & Ho & _).
      simpl in Hs, Ho. simpl snd. rewrite Hs, Ho. auto.
    + auto.
Qed.

Lemma PatientUI_reachable_selects pg :
  PatientUI.reachable pg ->
  In (PatientUI.sortBy (ui pg)) PatientUI.sortBy_options
  /\ In (PatientUI.order (ui pg)) PatientUI.order_options.
Proof.
  induction 1 as [| a answer pg Hr [IH1 IH2] Ha | i o answer pg Hr [IH1 IH2] Hi].
  - simpl; auto.
  - destruct (PatientUI_reachable_invariant pg Hr) as [Hinv _].
    destruct (PatientUI_step_deps (PatientUI.User a) answer pg Hinv)
      as [[-> | (v & Ea & ->)] [-> | (w & Eb & ->)]]; split; auto;
      unfold PatientUI.available in Ha;
      destruct (PatientUI.render (ui pg)) as [? | vw] eqn:Er;
      try discriminate Ha;
      destruct (render_selects _ _ Er) as [E1 E2];
      match goal with
      | E : PatientUI.User a = PatientUI.User _ |- _ =>
          inversion E; subst a; rewrite ?E1, ?E2 in Ha; simpl in Ha;
          now apply mem_In
      end.
  - destruct (PatientUI_reachable_invariant pg Hr) as [Hinv _].
    destruct (PatientUI_step_deps (PatientUI.Settled i o) answer pg Hinv)
      as [[-> | (v & Ea & _)] [-> | (w & Eb & _)]];
      try discriminate; auto.
Qed.

Lemma PatientUI_step_SelectSortBy key answer (pg : page PatientUI.state) :
  PatientUI.sortBy (ui pg) <> key ->
  map fst (inflight (PatientUI.step
                       (PatientUI.User (PatientUI.SelectSortBy key))
                       answer pg))
  = (map fst (inflight pg)
     ++ [mkRequest GET (api ++ "/sort")
           [("sort_by", key); ("order", PatientUI.order (ui pg))] None])%list.
Proof.
  intros H. unfold PatientUI.step, PatientUI.useEffect. simpl.
  destruct (String.eqb_spec (PatientUI.sortBy (ui pg)) key);
    [contradiction |].
  simpl. now rewrite map_app.
Qed.

Lemma PatientUI_step_SelectOrder ord answer (pg : page PatientUI.state) :
  PatientUI.order (ui pg) <> ord ->
  map fst (inflight (PatientUI.step
                       (PatientUI.User (PatientUI.SelectOrder ord))
                       answer pg))
  = (map fst (inflight pg)
     ++ [mkRequest GET (api ++ "/sort")
           [("sort_by", PatientUI.sortBy (ui pg)); ("order", ord)] None])%list.
Proof.
  intros H. unfold PatientUI.step, PatientUI.useEffect. simpl.
  rewrite String.eqb_refl.
  destruct (String.eqb_spec (PatientUI.order (ui pg)) ord);
    [contradiction |].
  simpl. now rewrite map_app.
Qed.

Lemma PatientUI_step_ClickApply answer (pg : page PatientUI.state) :
  map fst (inflight (PatientUI.step (PatientUI.User PatientUI.ClickApply)
                       answer pg))
  = (map fst (inflight pg) ++ [PatientUI.sort_request (ui pg)])%list.
Proof.
  unfold PatientUI.step. rewrite useEffect_unchanged by reflexivity.
  simpl. now rewrite map_app.
Qed.

(** ** The loading flag *)




(** ** When the page is displayed *)

Lemma falsy_valid_child v : truthy v = false -> valid_child v = true.
Proof. destruct v; simpl; try reflexivity; discriminate. Qed.

Lemma render_patient_card_children p :
  truthy p = true ->
  exists c,
    PatientUI.render_patient_card p = inr c
    /\ forallb valid_child (PatientUI.card_children c)
       = fields_valid card_fields p.
Proof.
  destruct p; simpl; try discriminate; intros _; eexists; split; reflexivity.
Qed.

Lemma render_list_card_children p :
  is_present p = true ->
  exists c,
    PatientUI.render_list_card p = inr c
    /\ forallb valid_child (PatientUI.item_children c)
       = fields_valid item_fields p.
Proof.
  destruct p; simpl; try discriminate; intros _; eexists; split; reflexivity.
Qed.

Lemma render_list_card_absent p :
  is_present p = false -> PatientUI.render_list_card p = inl TypeError.
Proof. destruct p; simpl; try discriminate; reflexivity. Qed.

Lemma traverse_mappable items :
  forallb is_present items = true ->
  exists cards,
    traverse PatientUI.render_list_card items = inr cards
    /\ forallb (fun c => forallb valid_child (PatientUI.item_children c))
         cards
       = forallb (fun p => is_present p && fields_valid item_fields p) items.
Proof.
  induction items as [| p items IH]; intros H.
  - exists []. split; reflexivity.
  - cbn [forallb] in H. apply andb_prop in H. destruct H as [Hp Hitems].
    destruct (render_list_card_children p Hp) as (c & Ec & Hc).
    destruct (IH Hitems) as (cards & Ecards & Hcards).
    exists (c :: cards). cbn [traverse forallb].
    rewrite Ec, Ecards, Hc, Hcards, Hp. split; reflexivity.
Qed.

Lemma traverse_unmappable items :
  forallb is_present items = false ->
  traverse PatientUI.render_list_card items = inl TypeError.
Proof.
  induction items as [| p items IH]; intros H; [discriminate |].
  cbn [forallb] in H. cbn [traverse].
  destruct (is_present p) eqn:Hp.
  - destruct (render_list_card_children p Hp) as (c & -> & _).
    simpl in H. rewrite (IH H). reflexivity.
  - now rewrite (render_list_card_absent p Hp).
Qed.

Lemma render_patients_mappable v :
  list_mappable v = true ->
  exists cards,
    PatientUI.render_patients v = inr cards
    /\ forallb (fun c => forallb valid_child (PatientUI.item_children c))
         cards
       = list_displayable v.
Proof.
  destruct v; simpl; try discriminate. apply traverse_mappable.
Qed.

Lemma render_patients_unmappable v :
  list_mappable v = false -> PatientUI.render_patients v = inl TypeError.
Proof.
  destruct v; simpl; try reflexivity. apply traverse_unmappable.
Qed.

Lemma list_displayable_mappable v :
  list_displayable v = true -> list_mappable v = true.
Proof.
  destruct v; simpl; try discriminate.
  induction items as [| p items IH]; simpl; [reflexivity |].
  intros H. apply andb_prop in H. destruct H as [Hp Hitems].
  apply andb_prop in Hp. destruct Hp as [-> _]. simpl. auto.
Qed.

(** What rendering gives, by what the state holds: a [TypeError] from the
    component function, an [Error] from React, or the screen. *)
Lemma render_cases s :
  (PatientUI.loading s = false
   /\ list_mappable (PatientUI.patients s) = false
   /\ PatientUI.render s = inl TypeError)
  \/ ((PatientUI.loading s = true
       \/ list_mappable (PatientUI.patients s) = true)
      /\ displayable s = false
      /\ PatientUI.render s = inl ChildError)
  \/ (displayable s = true /\ exists v, PatientUI.render s = inr v).
Proof.
  assert (Hcard : exists panel,
            jsx_and (PatientUI.singlePatient s)
              (PatientUI.render_patient_card (PatientUI.singlePatient s))
            = inr panel
            /\ PatientUI.child_ok
                 (fun c => forallb valid_child (PatientUI.card_children c))
                 panel
               = card_displayable (PatientUI.singlePatient s)).
  { unfold jsx_and, card_displayable.
    destruct (truthy (PatientUI.singlePatient s)) eqn:Es.
    - destruct (render_patient_card_children _ Es) as (c & -> & Hc).
      eexists. split; [reflexivity |]. exact Hc.
    - eexists. split; [reflexivity |]. simpl. now apply falsy_valid_child. }
  destruct Hcard as (panel & Epanel & Hpanel).
  assert (Hedit : exists edit,
            jsx_and (PatientUI.singlePatient s)
              (inr (PatientUI.render_edit_form (PatientUI.updateData s)))
            = inr edit
            /\ PatientUI.child_ok (fun _ => true) edit = true).
  { unfold jsx_and. destruct (truthy (PatientUI.singlePatient s)) eqn:Es.
    - eexists. split; reflexivity.
    - eexists. split; [reflexivity |]. simpl. now apply falsy_valid_child. }
  destruct Hedit as (edit & Eedit & Hedit).
  assert (Herr : exists para,
            jsx_and (PatientUI.error s) (inr (PatientUI.error s)) = inr para
            /\ PatientUI.child_ok valid_child para
               = valid_child (PatientUI.error s)).
  { unfold jsx_and. destruct (truthy (PatientUI.error s));
      eexists; split; reflexivity. }
  destruct Herr as (para & Epara & Hpara).
  unfold PatientUI.render, PatientUI.jsx, displayable.
  rewrite Epara, Epanel, Eedit. cbn [bind].
  destruct (PatientUI.loading s) eqn:El.
  - right. unfold jsx_and. cbn [truthy negb bind].
    unfold PatientUI.children_valid.
    cbn [PatientUI.error_paragraph PatientUI.patient_panel
         PatientUI.edit_panel PatientUI.loading_paragraph
         PatientUI.patient_list].
    rewrite Hpara, Hpanel, Hedit. cbn [PatientUI.child_ok valid_child].
    destruct (valid_child (PatientUI.error s));
      destruct (card_displayable (PatientUI.singlePatient s)); simpl;
      first [ right; split; [reflexivity | eauto]
            | left; split; [now left |]; split; reflexivity ].
  - unfold jsx_and at 1. cbn [truthy negb bind].
    destruct (list_mappable (PatientUI.patients s)) eqn:Em.
    + right.
      destruct (render_patients_mappable _ Em) as (cards & Ecards & Hcards).
      unfold jsx_and. cbn [truthy negb]. rewrite Ecards. cbn [bind].
      unfold PatientUI.children_valid.
      cbn [PatientUI.error_paragraph PatientUI.patient_panel
           PatientUI.edit_panel PatientUI.loading_paragraph
           PatientUI.patient_list].
      rewrite Hpara, Hpanel, Hedit. cbn [PatientUI.child_ok valid_child].
      rewrite Hcards.
      destruct (valid_child (PatientUI.error s));
        destruct (card_displayable (PatientUI.singlePatient s));
        destruct (list_displayable (PatientUI.patients s)); simpl;
        first [ right; split; [reflexivity | eauto]
              | left; split; [now right |]; split; reflexivity ].
    + left. split; [reflexivity |]. split; [reflexivity |].
      unfold jsx_and. cbn [truthy negb].
      now rewrite (render_patients_unmappable _ Em).
Qed.

Lemma render_displayable s :
  displayable s = true -> exists v, PatientUI.render s = inr v.
Proof.
  intros H.
  destruct (render_cases s) as [(El & Em & _) | [(_ & Hd & _) | (_ & Hv)]].
  - unfold displayable in H. rewrite El in H.
    apply andb_prop in H. destruct H as [_ H]. simpl in H.
    apply list_displayable_mappable in H. congruence.
  - congruence.
  - exact Hv.
Qed.

(** ** An answer arrives *)

(** On a page the user can reach, the settlement of a pending request runs
    the rest of its handler and nothing else: no effect follows. *)
Lemma PatientUI_step_settled i rk o answer pg :
  PatientUI.reachable pg ->
  nth_error (inflight pg) i = Some rk ->
  PatientUI.step (PatientUI.Settled i o) answer pg
  = launch (snd rk o) answer
      (mkPage (ui pg) (log pg) (remove_nth i (inflight pg))).
Proof.
  intros Hr E.
  destruct (PatientUI_reachable_invariant pg Hr) as [Hinv _].
  assert (Hrk : issued_by_handler rk).
  { rewrite Forall_forall in Hinv. apply Hinv. eapply nth_error_In; eauto. }
  destruct (PatientUI_rest_of_handler rk o answer
              (mkPage (ui pg) (log pg) (remove_nth i (inflight pg))) Hrk)
    as (_ & Hs & Ho & _).
  unfold PatientUI.step, settle. rewrite E. destruct rk as [r k].
  now apply useEffect_unchanged.
Qed.



(** The rest of [handleSearch] when its request settles, on whatever the
    page has become while it was pending. *)
Lemma PatientUI_rest_of_search rk answer (pg : page PatientUI.state) :
  issued_by_handler rk ->
  (exists id, url (fst rk) = api ++ "/patient/" ++ id) ->
  (forall response,
     launch (snd rk (Rejected response)) answer pg
     = mkPage
         (PatientUI.mkState (PatientUI.patients (ui pg)) false
            (PatientUI.sortBy (ui pg)) (PatientUI.order (ui pg))
            (PatientUI.patientId (ui pg)) (PatientUI.singlePatient (ui pg))
            (search_error response) (PatientUI.updateData (ui pg)))
         (log pg) (inflight pg))
  /\ (forall d,
       is_present d = true ->
       launch (snd rk (Resolved d)) answer pg
       = mkPage
           (PatientUI.mkState (PatientUI.patients (ui pg)) false
              (PatientUI.sortBy (ui pg)) (PatientUI.order (ui pg))
              (PatientUI.patientId (ui pg)) d (PatientUI.error (ui pg))
              (map (fun n => (n, get_opt d n)) PatientUI.edit_inputs))
           (log pg) (inflight pg)).
Proof.
  intros (a & s & answer0 & H) [id Hurl].
  destruct a; simpl PatientUI.handler in H; try discriminate H.
  - unfold PatientUI.handleSearch in H. rewrite truthy_patientId in H.
    destruct (String.eqb (PatientUI.patientId s) ""); [discriminate H |].
    simpl in H. inversion H; subst rk; clear H. split.
    + intros [[] |]; reflexivity.
    + intros d Hd. destruct d; try discriminate Hd; reflexivity.
  - simpl in H. inversion H; subst rk. simpl in Hurl. discriminate Hurl.
  - destruct answer0; [| discriminate H].
    simpl in H. inversion H; subst rk. simpl in Hurl. discriminate Hurl.
  - simpl in H. inversion H; subst rk. simpl in Hurl. discriminate Hurl.
Qed.

(** ** One user action, at most one request *)



(** ** A search that fails *)


(** The screen after a failed search that nothing overlapped. *)
Lemma failed_search_screen s answer response pg :
  PatientUI.patientId s <> "" ->
  list_displayable (PatientUI.patients (ui pg)) = true ->
  valid_child (search_error response) = true ->
  exists v,
    PatientUI.render
      (ui (fst (run (PatientUI.handleSearch s) answer [Rejected response]
                  pg)))
    = inr v
    /\ PatientUI.patient_panel v = Bare VNull
    /\ PatientUI.edit_panel v = Bare VNull
    /\ PatientUI.error_paragraph v = Element (search_error response).
Proof.
  intros H Hlist Hvalid.
  rewrite (handleSearch_rejected s answer response pg H).
  match goal with |- exists v, PatientUI.render ?st = inr v /\ _ =>
    destruct (render_displayable st) as [v Hv]
  end.
  { unfold displayable. cbn [PatientUI.error PatientUI.singlePatient
                             PatientUI.loading PatientUI.patients].
    now rewrite Hvalid, Hlist. }
  exists v. split; [exact Hv |].
  destruct (render_no_patient _ v Hv eq_refl) as [Hp He].
  destruct (render_inv _ v Hv) as (Herr & _).
  cbn [PatientUI.error PatientUI.singlePatient] in Hp, He, Herr.
  rewrite search_error_truthy in Herr. auto.
Qed.

(** C9 as amended: a search with a non-empty [patientId] has set
    [singlePatient] to [null] when it issues [GET /patient/{id}]; when the
    request fails, the rest of the handler sets the error (the [detail] of
    the server's answer, or else "Patient not found.") and resets
    [loading], and leaves [singlePatient], [updateData] and the rest as it
    finds them.  So a failed search that was answered before anything else
    happened leaves no record, and the screen then shows the error
    paragraph and neither the card nor the edit form. *)
Theorem failed_search_sets_only_the_error :
  (forall s answer pg,
     PatientUI.patientId s <> "" ->
     PatientUI.singlePatient
       (ui (launch (PatientUI.handleSearch s) answer pg)) = VNull
     /\ map fst (inflight (launch (PatientUI.handleSearch s) answer pg))
        = (map fst (inflight pg) ++ [PatientUI.search_request s])%list)
  /\ (forall i rk response answer pg,
     PatientUI.reachable pg ->
     nth_error (inflight pg) i = Some rk ->
     (exists id, url (fst rk) = api ++ "/patient/" ++ id) ->
     ui (PatientUI.step (PatientUI.Settled i (Rejected response)) answer pg)
     = {| PatientUI.patients := PatientUI.patients (ui pg);
          PatientUI.loading := false;
          PatientUI.sortBy := PatientUI.sortBy (ui pg);
          PatientUI.order := PatientUI.order (ui pg);
          PatientUI.patientId := PatientUI.patientId (ui pg);
          PatientUI.singlePatient := PatientUI.singlePatient (ui pg);
          PatientUI.error := search_error response;
          PatientUI.updateData := PatientUI.updateData (ui pg) |}
     /\ truthy (search_error response) = true)
  /\ (forall s answer response pg,
     PatientUI.patientId s <> "" ->
     ui (fst (run (PatientUI.handleSearch s) answer [Rejected response] pg))
     = {| PatientUI.patients := PatientUI.patients (ui pg);
          PatientUI.loading := false;
          PatientUI.sortBy := PatientUI.sortBy (ui pg);
          PatientUI.order := PatientUI.order (ui pg);
          PatientUI.patientId := PatientUI.patientId (ui pg);
          PatientUI.singlePatient := VNull;
          PatientUI.error := search_error response;
          PatientUI.updateData := PatientUI.updateData (ui pg) |})
  /\ (forall s answer response pg,
     PatientUI.patientId s <> "" ->
     list_displayable (PatientUI.patients (ui pg)) = true ->
     valid_child (search_error response) = true ->
     exists v,
       PatientUI.render
         (ui (fst (run (PatientUI.handleSearch s) answer
                     [Rejected response] pg)))
       = inr v
       /\ PatientUI.patient_panel v = Bare VNull
       /\ PatientUI.edit_panel v = Bare VNull
       /\ PatientUI.error_paragraph v = Element (search_error response)).
Proof.
  split; [| split; [| split]].
  - intros s answer pg H. unfold PatientUI.handleSearch.
    rewrite (patientId_not_empty s H). simpl.
    split; [reflexivity | now rewrite map_app].
  - intros i rk response answer pg Hr E Hurl.
    split; [| apply search_error_truthy].
    rewrite (PatientUI_step_settled i rk _ answer pg Hr E).
    destruct (PatientUI_reachable_invariant pg Hr) as [Hinv _].
    assert (Hrk : issued_by_handler rk).
    { rewrite Forall_forall in Hinv. apply Hinv. eapply nth_error_In; eauto. }
    destruct (PatientUI_rest_of_search rk answer
                (mkPage (ui pg) (log pg) (remove_nth i (inflight pg)))
                Hrk Hurl) as [Hrej _].
    now rewrite Hrej.
  - intros. now apply handleSearch_rejected.
  - intros. now apply failed_search_screen.
Qed.

Lemma failed_search_sets_only_the_error_witness :
  exists v,
    PatientUI.render
      (ui (fst (run (PatientUI.handleSearch showing_P001) false
                  [Rejected not_found] (mkPage showing_P001 [] []))))
    = inr v
    /\ PatientUI.patient_panel v = Bare VNull
    /\ PatientUI.edit_panel v = Bare VNull
    /\ PatientUI.error_paragraph v = Element (VStr "Patient not found").
Proof.
  refine (proj2 (proj2 (proj2 failed_search_sets_only_the_error))
            showing_P001 false not_found (mkPage showing_P001 [] [])
            _ _ _).
  - discriminate.
  - reflexivity.
  - reflexivity.
Defined.

(** C9 fails when searches overlap: the first search is answered with its
    record while the second is pending, then the second fails, and the
    record stays on the screen beside the error. *)
Lemma failed_search_beside_a_record :
  PatientUI.reachable second_search_pending
  /\ ~ failed_search_leaves_no_record second_search_pending
  /\ exists v card,
       PatientUI.render
         (ui (PatientUI.step (PatientUI.Settled 1 (Rejected not_found))
                false second_search_pending))
       = inr v
       /\ PatientUI.patient_panel v = Element card
       /\ PatientUI.card_name card = VStr "Ananya Verma"
       /\ PatientUI.error_paragraph v = Element (VStr "Patient not found").
Proof.
  split; [| split].
  - unfold second_search_pending.
    apply PatientUI.reach_settled; [| simpl; lia].
    apply PatientUI.reach_user; [| reflexivity].
    apply PatientUI.reach_user; [| reflexivity].
    apply PatientUI.reach_user; [| reflexivity].
    apply PatientUI.reach_user; [| reflexivity].
    apply PatientUI.reach_mount.
  - intros H.
    assert (E : PatientUI.singlePatient
                  (ui (PatientUI.step
                         (PatientUI.Settled 1 (Rejected not_found)) false
                         second_search_pending))
                = VNull).
    { eapply H; [reflexivity |]. exists "P002". reflexivity. }
    vm_compute in E. discriminate E.
  - eexists. eexists. split; [vm_compute; reflexivity |].
    repeat split.
Qed.

(** ** Failures *)





(** ** Sorting by the chosen key and order *)

(** C5: the page, whenever it is displayed, offers in its two selects the
    keys height, weight and bmi and the orders asc and desc, and accepts no
    other choice, so the page never holds one; [fetchSortedPatients] sends
    the chosen key as [sort_by] and the chosen order as [order] to
    [GET /sort], whether it runs because a select changed or because Apply
    was clicked, and when the request resolves [patients] is the data of
    the answer. *)
Theorem listing_sorts_by_the_chosen_key_and_order :
  (forall s,
     displayable s = true ->
     exists v,
       PatientUI.render s = inr v
       /\ PatientUI.sortBy_select v
          = (PatientUI.sortBy s, ["height"; "weight"; "bmi"])
       /\ PatientUI.order_select v = (PatientUI.order s, ["asc"; "desc"]))
  /\ (forall s choice,
     displayable s = true ->
     PatientUI.available (PatientUI.SelectSortBy choice) s
     = PatientUI.mem choice ["height"; "weight"; "bmi"]
     /\ PatientUI.available (PatientUI.SelectOrder choice) s
        = PatientUI.mem choice ["asc"; "desc"])
  /\ (forall s v,
     PatientUI.render s = inr v ->
     PatientUI.sortBy_select v
     = (PatientUI.sortBy s, ["height"; "weight"; "bmi"])
     /\ PatientUI.order_select v = (PatientUI.order s, ["asc"; "desc"]))
  /\ (forall pg,
     PatientUI.reachable pg ->
     In (PatientUI.sortBy (ui pg)) ["height"; "weight"; "bmi"]
     /\ In (PatientUI.order (ui pg)) ["asc"; "desc"])
  /\ (forall s answer os pg,
     snd (run (PatientUI.fetchSortedPatients s) answer os pg)
     = [mkRequest GET (api ++ "/sort")
          [("sort_by", PatientUI.sortBy s); ("order", PatientUI.order s)]
          None])
  /\ (forall s answer d pg,
     PatientUI.patients
       (ui (fst (run (PatientUI.fetchSortedPatients s) answer [Resolved d]
                   pg)))
     = d)
  /\ (forall key answer pg,
     PatientUI.sortBy (ui pg) <> key ->
     map fst (inflight (PatientUI.step
                          (PatientUI.User (PatientUI.SelectSortBy key))
                          answer pg))
     = (map fst (inflight pg)
        ++ [mkRequest GET (api ++ "/sort")
              [("sort_by", key); ("order", PatientUI.order (ui pg))]
              None])%list)
  /\ (forall ord answer pg,
     PatientUI.order (ui pg) <> ord ->
     map fst (inflight (PatientUI.step
                          (PatientUI.User (PatientUI.SelectOrder ord))
                          answer pg))
     = (map fst (inflight pg)
        ++ [mkRequest GET (api ++ "/sort")
              [("sort_by", PatientUI.sortBy (ui pg)); ("order", ord)]
              None])%list)
  /\ (forall answer pg,
     map fst (inflight (PatientUI.step (PatientUI.User PatientUI.ClickApply)
                          answer pg))
     = (map fst (inflight pg)
        ++ [mkRequest GET (api ++ "/sort")
              [("sort_by", PatientUI.sortBy (ui pg));
               ("order", PatientUI.order (ui pg))] None])%list).
Proof.
  split; [| split; [| split; [| split; [| split; [| split; [| split;
    [| split]]]]]]].
  - intros s Hd. destruct (render_displayable s Hd) as [v Hv].
    exists v. split; [exact Hv |]. now apply render_selects.
  - intros s choice Hd. destruct (render_displayable s Hd) as [v Hv].
    destruct (render_selects s v Hv) as [E1 E2].
    unfold PatientUI.available. rewrite Hv, E1, E2. split; reflexivity.
  - apply render_selects.
  - apply PatientUI_reachable_selects.
  - apply fetchSortedPatients_requests.
  - intros. reflexivity.
  - apply PatientUI_step_SelectSortBy.
  - apply PatientUI_step_SelectOrder.
  - apply PatientUI_step_ClickApply.
Qed.

Lemma listing_sorts_by_the_chosen_key_and_order_witness :
  (exists v,
     PatientUI.render (ui PatientUI.mount) = inr v
     /\ PatientUI.sortBy_select v = ("height", ["height"; "weight"; "bmi"])
     /\ PatientUI.order_select v = ("asc", ["asc"; "desc"]))
  /\ In (PatientUI.sortBy
           (ui (PatientUI.step
                  (PatientUI.User (PatientUI.SelectSortBy "bmi")) false
                  PatientUI.mount)))
       ["height"; "weight"; "bmi"]
  /\ map fst (inflight (PatientUI.step
                          (PatientUI.User (PatientUI.SelectSortBy "bmi"))
                          false PatientUI.mount))
     = [mkRequest GET (api ++ "/sort")
          [("sort_by", "height"); ("order", "asc")] None;
        mkRequest GET (api ++ "/sort")
          [("sort_by", "bmi"); ("order", "asc")] None].
Proof.
  split; [| split].
  - apply (proj1 listing_sorts_by_the_chosen_key_and_order
             (ui PatientUI.mount)).
    reflexivity.
  - apply (proj1 (proj2 (proj2 (proj2
             listing_sorts_by_the_chosen_key_and_order)))).
    apply PatientUI.reach_user; [apply PatientUI.reach_mount | reflexivity].
  - apply (proj1 (proj2 (proj2 (proj2 (proj2 (proj2 (proj2
             listing_sorts_by_the_chosen_key_and_order)))))) "bmi" false
             PatientUI.mount).
    discriminate.
Defined.

(** ** Submitting the create form: what is checked *)










(** * Further properties of the handlers *)

(** ** Editing an input *)

Lemma lookup_spread_set o k k' v :
  lookup k' (spread_set o k v)
  = if String.eqb k' k then v else lookup k' o.
Proof.
  induction o as [| [k0 v0] o IH]; simpl.
  - destruct (String.eqb k' k); reflexivity.
  - destruct (String.eqb_spec k k0) as [-> | Hk]; simpl.
    + destruct (String.eqb k' k0); reflexivity.
    + rewrite IH. destruct (String.eqb_spec k' k0) as [-> | Hk'].
      * destruct (String.eqb_spec k0 k); [congruence | reflexivity].
      * reflexivity.
Qed.

Lemma keys_spread_set o k v :
  In k (map fst o) -> map fst (spread_set o k v) = map fst o.
Proof.
  induction o as [| [k0 v0] o IH]; simpl; [contradiction |].
  intros H. destruct (String.eqb_spec k k0) as [-> | Hk]; simpl.
  - reflexivity.
  - f_equal. apply IH. destruct H; [congruence | assumption].
Qed.

Lemma keys_spread_set_new o k v :
  ~ In k (map fst o) -> map fst (spread_set o k v) = (map fst o ++ [k])%list.
Proof.
  induction o as [| [k0 v0] o IH]; simpl; [reflexivity |].
  intros H. destruct (String.eqb_spec k k0) as [-> | Hk]; simpl.
  - exfalso; auto.
  - f_equal. apply IH. auto.
Qed.

Lemma handleUpdateChange_run name v answer os pg :
  run (PatientUI.handleUpdateChange name v) answer os pg
  = (mkPage
       (PatientUI.mkState (PatientUI.patients (ui pg))
          (PatientUI.loading (ui pg)) (PatientUI.sortBy (ui pg))
          (PatientUI.order (ui pg)) (PatientUI.patientId (ui pg))
          (PatientUI.singlePatient (ui pg)) (PatientUI.error (ui pg))
          (spread_set (PatientUI.updateData (ui pg)) name (VStr v)))
       (log pg) (inflight pg), []).
Proof. reflexivity. Qed.

Lemma handleChange_run name v answer os pg :
  run (Home.handleChange name v) answer os pg
  = (mkPage
       (Home.mkState (spread_set (Home.formData (ui pg)) name (VStr v))
          (Home.loading (ui pg)))
       (log pg) (inflight pg), []).
Proof. reflexivity. Qed.

(** X1: [handleUpdateChange] writes the typed text under the name of the
    edited input and nothing else: every other property of [updateData]
    reads as before, the edit form shows the new text in that input and the
    old values in the others, the object keeps its keys when the name is
    one of them, and no request is issued. *)
Theorem handleUpdateChange_edits_one_field name v answer os pg :
  let after := fst (run (PatientUI.handleUpdateChange name v) answer os pg) in
  snd (run (PatientUI.handleUpdateChange name v) answer os pg) = []
  /\ inflight after = inflight pg
  /\ (forall k,
        lookup k (PatientUI.updateData (ui after))
        = if String.eqb k name then VStr v
          else lookup k (PatientUI.updateData (ui pg)))
  /\ PatientUI.render_edit_form (PatientUI.updateData (ui after))
     = map (fun n =>
              (n, if String.eqb n name then VStr v
                  else lookup n (PatientUI.updateData (ui pg))))
         PatientUI.edit_inputs
  /\ (In name (map fst (PatientUI.updateData (ui pg))) ->
      map fst (PatientUI.updateData (ui after))
      = map fst (PatientUI.updateData (ui pg)))
  /\ PatientUI.singlePatient (ui after) = PatientUI.singlePatient (ui pg)
  /\ PatientUI.patients (ui after) = PatientUI.patients (ui pg)
  /\ PatientUI.patientId (ui after) = PatientUI.patientId (ui pg)
  /\ PatientUI.error (ui after) = PatientUI.error (ui pg)
  /\ PatientUI.loading (ui after) = PatientUI.loading (ui pg).
Proof.
  cbv zeta. rewrite handleUpdateChange_run.
  cbn [fst snd ui inflight PatientUI.updateData PatientUI.singlePatient
       PatientUI.patients PatientUI.patientId PatientUI.error
       PatientUI.loading].
  split; [reflexivity |]. split; [reflexivity |].
  split; [intros k; apply lookup_spread_set |].
  split.
  - unfold PatientUI.render_edit_form. apply map_ext.
    intros n. now rewrite lookup_spread_set.
  - split; [apply keys_spread_set |]. repeat split.
Qed.

Lemma handleUpdateChange_edits_one_field_witness :
  In "city" (map fst (PatientUI.updateData showing_P001))
  /\ map fst
       (PatientUI.updateData
          (ui (fst (run (PatientUI.handleUpdateChange "city" "Shillong")
                      false [] (mkPage showing_P001 [] [])))))
     = ["name"; "city"; "age"; "gender"; "height"; "weight"].
Proof.
  assert (H : In "city" (map fst (PatientUI.updateData showing_P001)))
    by (simpl; auto).
  split; [exact H |].
  destruct (handleUpdateChange_edits_one_field "city" "Shillong" false []
              (mkPage showing_P001 [] [])) as (_ & _ & _ & _ & Hk & _).
  exact (Hk H).
Defined.

(** X2: [handleChange] of the create form writes the typed text under the
    name of the edited input and nothing else: the other inputs show what
    they showed, the object keeps its keys when the name is one of them,
    [loading] is untouched and no request is issued. *)
Theorem handleChange_edits_one_field name v answer os pg :
  let after := fst (run (Home.handleChange name v) answer os pg) in
  snd (run (Home.handleChange name v) answer os pg) = []
  /\ inflight after = inflight pg
  /\ (forall k,
        lookup k (Home.formData (ui after))
        = if String.eqb k name then VStr v
          else lookup k (Home.formData (ui pg)))
  /\ Home.inputs (Home.render (ui after))
     = map (fun n =>
              (n, if String.eqb n name then VStr v
                  else lookup n (Home.formData (ui pg))))
         Home.form_inputs
  /\ (In name (map fst (Home.formData (ui pg))) ->
      map fst (Home.formData (ui after)) = map fst (Home.formData (ui pg)))
  /\ Home.loading (ui after) = Home.loading (ui pg).
Proof.
  cbv zeta. rewrite handleChange_run.
  cbn [fst snd ui inflight Home.formData Home.loading].
  split; [reflexivity |]. split; [reflexivity |].
  split; [intros k; apply lookup_spread_set |].
  split.
  - unfold Home.render. cbn [Home.inputs Home.formData]. apply map_ext.
    intros n. now rewrite lookup_spread_set.
  - split; [apply keys_spread_set | reflexivity].
Qed.

Lemma handleChange_edits_one_field_witness :
  In "age" (map fst (Home.formData Home.initial))
  /\ map fst
       (Home.formData
          (ui (fst (run (Home.handleChange "age" "28") false []
                      Home.mount))))
     = ["id"; "name"; "gender"; "city"; "age"; "height"; "weight"].
Proof.
  assert (H : In "age" (map fst (Home.formData Home.initial)))
    by (simpl; auto 10).
  split; [exact H |].
  destruct (handleChange_edits_one_field "age" "28" false [] Home.mount)
    as (_ & _ & _ & _ & Hk & _).
  exact (Hk H).
Defined.

(** ** A search that is answered *)

(** X4: when the search is answered with [null] or with nothing, reading
    the name of the record throws inside the [try]: the handler ends as a
    failed search does, with "Patient not found.", no card, the edit form
    untouched and [loading] reset. *)
Theorem search_answered_without_a_record s answer d pg :
  PatientUI.patientId s <> "" ->
  d = VNull \/ d = VUndefined ->
  let after := fst (run (PatientUI.handleSearch s) answer [Resolved d] pg) in
  PatientUI.singlePatient (ui after) = d
  /\ truthy (PatientUI.singlePatient (ui after)) = false
  /\ PatientUI.error (ui after) = VStr "Patient not found."
  /\ PatientUI.updateData (ui after) = PatientUI.updateData (ui pg)
  /\ PatientUI.loading (ui after) = false
  /\ log after = log pg.
Proof.
  intros H Hd. cbv zeta. unfold PatientUI.handleSearch.
  rewrite (patientId_not_empty s H).
  destruct Hd; subst d; repeat split; reflexivity.
Qed.

Lemma search_answered_without_a_record_witness :
  PatientUI.patientId showing_P001 <> ""
  /\ (VNull = VNull \/ VNull = VUndefined)
  /\ PatientUI.error
       (ui (fst (run (PatientUI.handleSearch showing_P001) false
                   [Resolved VNull] (mkPage showing_P001 [] []))))
     = VStr "Patient not found.".
Proof.
  assert (H : PatientUI.patientId showing_P001 <> "") by discriminate.
  assert (Hd : VNull = VNull \/ VNull = VUndefined) by (left; reflexivity).
  split; [exact H |]. split; [exact Hd |].
  destruct (search_answered_without_a_record showing_P001 false VNull
              (mkPage showing_P001 [] []) H Hd) as (_ & _ & He & _).
  exact He.
Defined.

(** ** Updating and deleting *)

(** X5: [updatePatient] changes no state of the page, whether the request
    succeeds or fails: it only opens the alert that tells which.  The card
    and the list keep showing what the last search and the last sort
    returned. *)
Theorem updatePatient_changes_no_state s answer o pg :
  ui (fst (run (PatientUI.updatePatient s) answer [o] pg)) = ui pg
  /\ inflight (fst (run (PatientUI.updatePatient s) answer [o] pg))
     = inflight pg
  /\ log (fst (run (PatientUI.updatePatient s) answer [o] pg))
     = (log pg
        ++ [Alerted match o with
                    | Resolved _ => "Patient updated successfully!"
                    | Rejected _ => "Failed to update patient."
                    end])%list.
Proof. destruct o; repeat split. Qed.

(** X6: [deletePatient] asks first.  Declined, it issues nothing and
    changes nothing.  Confirmed and successful, it alerts, removes the card
    and empties the search box, and touches nothing else: the list is not
    fetched again and the edit form keeps its values.  Confirmed and
    failed, it alerts and changes no state. *)
Theorem deletePatient_outcomes s o pg :
  (snd (run (PatientUI.deletePatient s) false [o] pg) = []
   /\ ui (fst (run (PatientUI.deletePatient s) false [o] pg)) = ui pg
   /\ log (fst (run (PatientUI.deletePatient s) false [o] pg))
      = (log pg
         ++ [Confirmed ("Delete patient " ++ PatientUI.patientId s ++ "?")
               false])%list)
  /\ (forall d,
        o = Resolved d ->
        let after := fst (run (PatientUI.deletePatient s) true [o] pg) in
        PatientUI.singlePatient (ui after) = VNull
        /\ PatientUI.patientId (ui after) = ""
        /\ PatientUI.patients (ui after) = PatientUI.patients (ui pg)
        /\ PatientUI.updateData (ui after) = PatientUI.updateData (ui pg)
        /\ PatientUI.error (ui after) = PatientUI.error (ui pg)
        /\ PatientUI.loading (ui after) = PatientUI.loading (ui pg)
        /\ PatientUI.sortBy (ui after) = PatientUI.sortBy (ui pg)
        /\ PatientUI.order (ui after) = PatientUI.order (ui pg)
        /\ inflight after = inflight pg
        /\ snd (run (PatientUI.deletePatient s) true [o] pg)
           = [PatientUI.delete_request s]
        /\ log after
           = (log pg
              ++ [Confirmed
                    ("Delete patient " ++ PatientUI.patientId s ++ "?") true;
                  Alerted "Patient deleted successfully!"])%list)
  /\ (forall response,
        o = Rejected response ->
        let after := fst (run (PatientUI.deletePatient s) true [o] pg) in
        ui after = ui pg
        /\ inflight after = inflight pg
        /\ log after
           = (log pg
              ++ [Confirmed
                    ("Delete patient " ++ PatientUI.patientId s ++ "?") true;
                  Alerted "Deletion failed."])%list).
Proof.
  split; [| split].
  - repeat split.
  - intros d ->. cbv zeta. simpl. rewrite <- !app_assoc. repeat split.
  - intros response ->. cbv zeta. simpl. rewrite <- !app_assoc.
    repeat split.
Qed.

Lemma deletePatient_outcomes_witness :
  PatientUI.singlePatient
    (ui (fst (run (PatientUI.deletePatient showing_P001) true
                [Resolved VNull] (mkPage showing_P001 [] []))))
  = VNull
  /\ PatientUI.patientId
       (ui (fst (run (PatientUI.deletePatient showing_P001) true
                   [Resolved VNull] (mkPage showing_P001 [] []))))
     = "".
Proof.
  destruct (proj1 (proj2 (deletePatient_outcomes showing_P001
                            (Resolved VNull) (mkPage showing_P001 [] [])))
              VNull eq_refl) as (H1 & H2 & _).
  exact (conj H1 H2).
Defined.

(** X7: the id of an update or of a deletion is the text of the search box
    when the button is clicked, not the id of the record on display: after
    the box is retyped, the card and the edit form are those of the record
    found before, and Update sends that form to the retyped id. *)
Theorem update_and_delete_use_the_typed_id v answer (pg : page PatientUI.state) :
  let typed :=
    PatientUI.step (PatientUI.User (PatientUI.TypePatientId v)) answer pg in
  PatientUI.singlePatient (ui typed) = PatientUI.singlePatient (ui pg)
  /\ PatientUI.updateData (ui typed) = PatientUI.updateData (ui pg)
  /\ inflight typed = inflight pg
  /\ map fst (inflight (PatientUI.step (PatientUI.User PatientUI.ClickUpdate)
                          answer typed))
     = (map fst (inflight pg)
        ++ [mkRequest PUT (api ++ "/edit/" ++ v) []
              (Some (VObj (PatientUI.updateData (ui pg))))])%list
  /\ map fst (inflight (PatientUI.step (PatientUI.User PatientUI.ClickDelete)
                          true typed))
     = (map fst (inflight pg)
        ++ [mkRequest DELETE (api ++ "/delete/" ++ v) [] None])%list.
Proof.
  cbv zeta.
  assert (Ht : PatientUI.step (PatientUI.User (PatientUI.TypePatientId v))
                 answer pg
               = mkPage
                   (PatientUI.mkState (PatientUI.patients (ui pg))
                      (PatientUI.loading (ui pg)) (PatientUI.sortBy (ui pg))
                      (PatientUI.order (ui pg)) v
                      (PatientUI.singlePatient (ui pg))
                      (PatientUI.error (ui pg))
                      (PatientUI.updateData (ui pg)))
                   (log pg) (inflight pg)).
  { unfold PatientUI.step. now rewrite useEffect_unchanged. }
  rewrite Ht. split; [reflexivity |]. split; [reflexivity |].
  split; [reflexivity |]. split.
  - now rewrite PatientUI_step_ClickUpdate.
  - unfold PatientUI.step. rewrite useEffect_unchanged by reflexivity.
    simpl. now rewrite map_app.
Qed.

Lemma render_search_input s v :
  PatientUI.render s = inr v ->
  PatientUI.search_input v = PatientUI.patientId s.
Proof.
  intros Hrender. apply render_jsx in Hrender. destruct Hrender as [Hrender _].
  revert Hrender. unfold PatientUI.jsx, jsx_and. simpl.
  destruct (truthy (PatientUI.error s)); simpl;
  destruct (truthy (PatientUI.singlePatient s)); simpl;
  try destruct (PatientUI.render_patient_card (PatientUI.singlePatient s));
  simpl; try discriminate;
  destruct (PatientUI.loading s); simpl;
  try destruct (PatientUI.render_patients (PatientUI.patients s));
  simpl; try discriminate;
  intros H; inversion H; subst; reflexivity.
Qed.

(** X8: once a deletion succeeded the search box is empty and the card
    is gone, so the edit form with its Update and Delete buttons is off the
    screen, and a click on Search without retyping issues no request and
    asks for an id. *)
Theorem after_a_deletion_the_panel_is_closed s d answer os pg :
  let after := fst (run (PatientUI.deletePatient s) true [Resolved d] pg) in
  PatientUI.available PatientUI.ClickUpdate (ui after) = false
  /\ PatientUI.available PatientUI.ClickDelete (ui after) = false
  /\ (forall v,
        PatientUI.render (ui after) = inr v ->
        PatientUI.search_input v = ""
        /\ PatientUI.patient_panel v = Bare VNull
        /\ PatientUI.edit_panel v = Bare VNull)
  /\ snd (run (PatientUI.handleSearch (ui after)) answer os after) = []
  /\ PatientUI.error
       (ui (fst (run (PatientUI.handleSearch (ui after)) answer os after)))
     = VStr "Enter a valid patient ID.".
Proof.
  cbv zeta.
  set (after := fst (run (PatientUI.deletePatient s) true [Resolved d] pg)).
  assert (Hid : PatientUI.patientId (ui after) = "") by reflexivity.
  assert (Hsp : PatientUI.singlePatient (ui after) = VNull) by reflexivity.
  assert (Hpanel : forall v,
            PatientUI.render (ui after) = inr v ->
            PatientUI.search_input v = ""
            /\ PatientUI.patient_panel v = Bare VNull
            /\ PatientUI.edit_panel v = Bare VNull).
  { intros v Hv.
    destruct (render_no_patient _ v Hv) as [Hp He];
      [now rewrite Hsp |].
    rewrite Hsp in Hp, He. repeat split; auto.
    now rewrite (render_search_input _ v Hv). }
  split; [| split; [| split; [exact Hpanel |]]].
  - unfold PatientUI.available.
    destruct (PatientUI.render (ui after)) as [e | v] eqn:Er; [reflexivity |].
    destruct (Hpanel v eq_refl) as (_ & _ & ->). reflexivity.
  - unfold PatientUI.available.
    destruct (PatientUI.render (ui after)) as [e | v] eqn:Er; [reflexivity |].
    destruct (Hpanel v eq_refl) as (_ & _ & ->). reflexivity.
  - rewrite (patientId_empty _ Hid). split; reflexivity.
Qed.

Lemma after_a_deletion_the_panel_is_closed_witness :
  exists v,
    PatientUI.render
      (ui (fst (run (PatientUI.deletePatient showing_P001) true
                  [Resolved VNull] (mkPage showing_P001 [] []))))
    = inr v
    /\ PatientUI.search_input v = ""
    /\ PatientUI.patient_panel v = Bare VNull
    /\ PatientUI.edit_panel v = Bare VNull.
Proof.
  eexists. split; [vm_compute; reflexivity |].
  refine (proj1 (proj2 (proj2 (after_a_deletion_the_panel_is_closed
            showing_P001 VNull false [] (mkPage showing_P001 [] []))))
            _ _).
  vm_compute; reflexivity.
Defined.

(** ** Submitting the create form *)

(** X9: a successful submission alerts, logs the answer and empties the
    seven fields of the form; a failed one alerts, logs the error and keeps
    what the user typed.  Both end with [loading] reset and nothing in
    flight. *)
Theorem handleSubmit_outcomes s answer pg :
  (forall d,
     let after := fst (run (Home.handleSubmit s) answer [Resolved d] pg) in
     Home.formData (ui after) = Home.empty_form
     /\ Home.loading (ui after) = false
     /\ inflight after = inflight pg
     /\ log after
        = (log pg
           ++ [DefaultPrevented; Alerted "Patient created successfully!";
               ConsoleLog [CVal d]])%list)
  /\ (forall response,
     let after :=
       fst (run (Home.handleSubmit s) answer [Rejected response] pg) in
     Home.formData (ui after) = Home.formData (ui pg)
     /\ Home.loading (ui after) = false
     /\ inflight after = inflight pg
     /\ log after
        = (log pg
           ++ [DefaultPrevented; Alerted "Submission failed";
               ConsoleError [CExn (AxiosError response)]])%list).
Proof.
  split; intros; cbv zeta; simpl; rewrite <- !app_assoc; repeat split.
Qed.






(** ** The shape of the edit form *)

Lemma PatientUI_available_EditField name v s :
  PatientUI.available (PatientUI.EditField name v) s = true ->
  In name PatientUI.edit_inputs.
Proof.
  unfold PatientUI.available.
  destruct (PatientUI.render s); [discriminate |].
  intros H. apply andb_prop in H. now apply mem_In.
Qed.

Lemma PatientUI_launch_handler_updateData a answer
    (pg : page PatientUI.state) :
  PatientUI.available a (ui pg) = true ->
  six_fields (PatientUI.updateData (ui pg)) ->
  let pg' := launch (PatientUI.handler a (ui pg)) answer pg in
  six_fields (PatientUI.updateData (ui pg'))
  /\ (inflight pg' = inflight pg
      \/ exists rk,
           inflight pg' = (inflight pg ++ [rk])%list
           /\ (method (fst rk) = PUT ->
               data (fst rk) = Some (VObj (PatientUI.updateData (ui pg))))).
Proof.
  intros Ha Hk. cbv zeta.
  destruct a; simpl PatientUI.handler.
  - split; [exact Hk | now left].
  - unfold PatientUI.handleSearch. rewrite truthy_patientId.
    destruct (String.eqb (PatientUI.patientId (ui pg)) ""); simpl.
    + split; [exact Hk | now left].
    + split; [exact Hk |]. right. eexists. split; [reflexivity |].
      discriminate.
  - apply PatientUI_available_EditField in Ha. simpl.
    split; [| now left].
    unfold six_fields in *. rewrite keys_spread_set; [exact Hk |].
    now rewrite Hk.
  - simpl. split; [exact Hk |]. right. eexists. split; reflexivity.
  - destruct answer; simpl.
    + split; [exact Hk |]. right. eexists. split; [reflexivity |].
      discriminate.
    + split; [exact Hk | now left].
  - split; [exact Hk | now left].
  - split; [exact Hk | now left].
  - simpl. split; [exact Hk |]. right. eexists. split; [reflexivity |].
    discriminate.
Qed.

Lemma PatientUI_rest_updateData rk o answer (pg : page PatientUI.state) :
  issued_by_handler rk ->
  six_fields (PatientUI.updateData (ui pg)) ->
  six_fields (PatientUI.updateData (ui (launch (snd rk o) answer pg))).
Proof.
  intros (a & s & answer0 & H) Hk.
  destruct a; simpl PatientUI.handler in H; try discriminate H.
  - unfold PatientUI.handleSearch in H. rewrite truthy_patientId in H.
    destruct (String.eqb (PatientUI.patientId s) ""); [discriminate H |].
    simpl in H. inversion H; subst rk; clear H.
    destruct o as [d | response]; [destruct d |]; simpl;
      first [exact Hk | reflexivity].
  - simpl in H. inversion H; subst rk; clear H.
    destruct o; simpl; exact Hk.
  - destruct answer0; [| discriminate H].
    simpl in H. inversion H; subst rk; clear H.
    destruct o; simpl; exact Hk.
  - simpl in H. inversion H; subst rk; clear H.
    destruct o; simpl; exact Hk.
Qed.

Lemma useEffect_updateData prev answer (pg : page PatientUI.state) :
  PatientUI.updateData (ui (PatientUI.useEffect prev answer pg))
  = PatientUI.updateData (ui pg)
  /\ (inflight (PatientUI.useEffect prev answer pg) = inflight pg
      \/ exists rk,
           inflight (PatientUI.useEffect prev answer pg)
           = (inflight pg ++ [rk])%list
           /\ method (fst rk) = GET).
Proof.
  unfold PatientUI.useEffect.
  match goal with |- context [if ?c then _ else _] => destruct c end.
  - split; [reflexivity |]. right. eexists. split; reflexivity.
  - split; [reflexivity | now left].
Qed.

(** X11: on the patient page the user can reach, [updateData] always has
    exactly the six fields name, city, age, gender, height and weight,
    whatever the server answered to the searches, and so has the body of
    every [PUT] in flight: no update carries a [bmi], a [verdict] or an
    [id]. *)
Theorem edit_form_always_has_six_fields pg :
  PatientUI.reachable pg ->
  six_fields (PatientUI.updateData (ui pg))
  /\ Forall
       (fun rk =>
          method (fst rk) = PUT ->
          exists o, data (fst rk) = Some (VObj o) /\ six_fields o)
       (inflight pg).
Proof.
  intros Hr.
  induction Hr as [| a answer pg Hr [Hk Hin] Ha
                   | i o answer pg Hr [Hk Hin] Hi].
  - split; [reflexivity |]. constructor; [discriminate | constructor].
  - unfold PatientUI.step.
    destruct (PatientUI_launch_handler_updateData a answer pg Ha Hk)
      as [Hk' Hin'].
    match goal with |- context [PatientUI.useEffect ?p answer ?m] =>
      destruct (useEffect_updateData p answer m) as [-> Heff]
    end.
    split; [exact Hk' |].
    assert (Hmid : Forall
              (fun rk =>
                 method (fst rk) = PUT ->
                 exists o, data (fst rk) = Some (VObj o) /\ six_fields o)
              (inflight (launch (PatientUI.handler a (ui pg)) answer pg))).
    { destruct Hin' as [-> | (rk & -> & Hrk)]; [exact Hin |].
      apply Forall_app. split; [exact Hin |].
      constructor; [| constructor]. intros Hm. eauto. }
    destruct Heff as [-> | (rk & -> & Hrk)]; [exact Hmid |].
    apply Forall_app. split; [exact Hmid |].
    constructor; [| constructor]. rewrite Hrk. discriminate.
  - destruct (PatientUI_reachable_invariant pg Hr) as [Hinv _].
    unfold PatientUI.step.
    match goal with |- context [PatientUI.useEffect ?p answer ?m] =>
      destruct (useEffect_updateData p answer m) as [-> Heff]
    end.
    assert (Hmid : six_fields
                     (PatientUI.updateData (ui (settle i o answer pg)))
                   /\ Forall
                        (fun rk =>
                           method (fst rk) = PUT ->
                           exists o,
                             data (fst rk) = Some (VObj o) /\ six_fields o)
                        (inflight (settle i o answer pg))).
    { unfold settle.
      destruct (nth_error (inflight pg) i) as [[r k] |] eqn:E;
        [| split; assumption].
      assert (Hrk : issued_by_handler (r, k)).
      { rewrite Forall_forall in Hinv. apply Hinv.
        eapply nth_error_In; eauto. }
      split.
      - apply (PatientUI_rest_updateData (r, k)); assumption.
      - destruct (PatientUI_rest_of_handler (r, k) o answer
                    (mkPage (ui pg) (log pg) (remove_nth i (inflight pg)))
                    Hrk) as (Hsame & _).
        simpl in Hsame. simpl snd. rewrite Hsame.
        now apply Forall_remove_nth. }
    destruct Hmid as [Hk' Hmid]. split; [exact Hk' |].
    destruct Heff as [-> | (rk & -> & Hrk)]; [exact Hmid |].
    apply Forall_app. split; [exact Hmid |].
    constructor; [| constructor]. rewrite Hrk. discriminate.
Qed.

Lemma edit_form_always_has_six_fields_witness :
  six_fields
    (PatientUI.updateData
       (ui (PatientUI.step (PatientUI.Settled 1 (Resolved sample_patient))
              false
              (PatientUI.step (PatientUI.User PatientUI.ClickSearch) false
                 (PatientUI.step
                    (PatientUI.User (PatientUI.TypePatientId "P001")) false
                    PatientUI.mount))))).
Proof.
  refine (proj1 (edit_form_always_has_six_fields _ _)).
  apply PatientUI.reach_settled; [| simpl; lia].
  apply PatientUI.reach_user; [| reflexivity].
  apply PatientUI.reach_user; [| reflexivity].
  apply PatientUI.reach_mount.
Defined.

(** ** Answers that arrive out of order *)

Lemma PatientUI_rest_by_url rk d answer (pg : page PatientUI.state) :
  issued_by_handler rk ->
  (url (fst rk) = api ++ "/sort" ->
   PatientUI.patients (ui (launch (snd rk (Resolved d)) answer pg)) = d)
  /\ ((exists id, url (fst rk) = api ++ "/patient/" ++ id) ->
      PatientUI.singlePatient (ui (launch (snd rk (Resolved d)) answer pg))
      = d
      /\ PatientUI.patientId (ui (launch (snd rk (Resolved d)) answer pg))
         = PatientUI.patientId (ui pg)).
Proof.
  intros (a & s & answer0 & H).
  destruct a; simpl PatientUI.handler in H; try discriminate H.
  - unfold PatientUI.handleSearch in H. rewrite truthy_patientId in H.
    destruct (String.eqb (PatientUI.patientId s) ""); [discriminate H |].
    simpl in H. inversion H; subst rk; clear H. split.
    + simpl. intros E. discriminate E.
    + intros _. destruct d; split; reflexivity.
  - simpl in H. inversion H; subst rk; clear H. split.
    + simpl. intros E. discriminate E.
    + simpl. intros [id E]. discriminate E.
  - destruct answer0; [| discriminate H].
    simpl in H. inversion H; subst rk; clear H. split.
    + simpl. intros E. discriminate E.
    + simpl. intros [id E]. discriminate E.
  - simpl in H. inversion H; subst rk; clear H. split.
    + intros _. reflexivity.
    + simpl. intros [id E]. discriminate E.
Qed.

(** X13: whichever pending request settles, its data is stored: the answer
    to a [GET /sort] replaces the list and the answer to a
    [GET /patient/{id}] replaces the record on display, also when a request
    issued later has been answered before, and the selects and the search
    box stay as the user left them.  The page shows what arrived last, not
    what was asked last. *)
Theorem the_answer_that_settles_last_wins i rk d answer pg :
  PatientUI.reachable pg ->
  nth_error (inflight pg) i = Some rk ->
  (url (fst rk) = api ++ "/sort" ->
   PatientUI.patients
     (ui (PatientUI.step (PatientUI.Settled i (Resolved d)) answer pg))
   = d)
  /\ ((exists id, url (fst rk) = api ++ "/patient/" ++ id) ->
      PatientUI.singlePatient
        (ui (PatientUI.step (PatientUI.Settled i (Resolved d)) answer pg))
      = d
      /\ PatientUI.patientId
           (ui (PatientUI.step (PatientUI.Settled i (Resolved d)) answer pg))
         = PatientUI.patientId (ui pg))
  /\ PatientUI.sortBy
       (ui (PatientUI.step (PatientUI.Settled i (Resolved d)) answer pg))
     = PatientUI.sortBy (ui pg)
  /\ PatientUI.order
       (ui (PatientUI.step (PatientUI.Settled i (Resolved d)) answer pg))
     = PatientUI.order (ui pg).
Proof.
  intros Hr E.
  destruct (PatientUI_reachable_invariant pg Hr) as [Hinv _].
  assert (Hrk : issued_by_handler rk).
  { rewrite Forall_forall in Hinv. apply Hinv. eapply nth_error_In; eauto. }
  destruct rk as [r k].
  destruct (PatientUI_rest_of_handler (r, k) (Resolved d) answer
              (mkPage (ui pg) (log pg) (remove_nth i (inflight pg))) Hrk)
    as (_ & Hs & Ho & _).
  destruct (PatientUI_rest_by_url (r, k) d answer
              (mkPage (ui pg) (log pg) (remove_nth i (inflight pg))) Hrk)
    as [Hsort Hsearch].
  simpl in Hs, Ho, Hsort, Hsearch.
  assert (Hstep : PatientUI.step (PatientUI.Settled i (Resolved d)) answer pg
                  = launch (k (Resolved d)) answer
                      (mkPage (ui pg) (log pg)
                         (remove_nth i (inflight pg)))).
  { unfold PatientUI.step, settle. rewrite E.
    now apply useEffect_unchanged. }
  rewrite Hstep. split; [exact Hsort |]. split; [exact Hsearch |].
  split; [exact Hs | exact Ho].
Qed.

Lemma the_answer_that_settles_last_wins_witness :
  PatientUI.sortBy
    (ui (PatientUI.step (PatientUI.Settled 0 (Resolved by_bmi)) false
           awaiting_the_older_sort))
  = "height"
  /\ PatientUI.patients
       (ui (PatientUI.step (PatientUI.Settled 0 (Resolved by_bmi)) false
              awaiting_the_older_sort))
     = by_bmi.
Proof.
  assert (Hr : PatientUI.reachable awaiting_the_older_sort).
  { unfold awaiting_the_older_sort.
    apply PatientUI.reach_settled; [| simpl; lia].
    apply PatientUI.reach_settled; [| simpl; lia].
    apply PatientUI.reach_user; [| reflexivity].
    apply PatientUI.reach_user; [| reflexivity].
    apply PatientUI.reach_mount. }
  split; [reflexivity |].
  refine (proj1 (the_answer_that_settles_last_wins 0 _ by_bmi false
                   awaiting_the_older_sort Hr _) _).
  - reflexivity.
  - reflexivity.
Defined.

(** ** What typing and selecting do not do *)

(** X14: typing in the search box or in an input of the edit form issues
    no request, and choosing in a select the value it already has changes
    nothing at all: the list is fetched again only when [sortBy] or [order]
    really changes (or on Apply). *)
Theorem typing_and_reselecting_fetch_nothing answer (pg : page PatientUI.state) :
  (forall v,
     inflight (PatientUI.step (PatientUI.User (PatientUI.TypePatientId v))
                 answer pg)
     = inflight pg)
  /\ (forall name v,
     inflight (PatientUI.step (PatientUI.User (PatientUI.EditField name v))
                 answer pg)
     = inflight pg)
  /\ PatientUI.step
       (PatientUI.User (PatientUI.SelectSortBy (PatientUI.sortBy (ui pg))))
       answer pg
     = pg
  /\ PatientUI.step
       (PatientUI.User (PatientUI.SelectOrder (PatientUI.order (ui pg))))
       answer pg
     = pg.
Proof.
  repeat split; intros; unfold PatientUI.step;
    rewrite useEffect_unchanged by reflexivity;
    try reflexivity; destruct pg as [[] ? ?]; reflexivity.
Qed.

(** ** Sorting and searching side by side *)

Lemma render_while_loading s v :
  PatientUI.render s = inr v ->
  PatientUI.loading s = true ->
  PatientUI.patient_list v = Bare (VBool false)
  /\ PatientUI.loading_paragraph v = Element tt.
Proof.
  intros H Hl. apply render_jsx in H. destruct H as [H _].
  unfold PatientUI.jsx, jsx_and in H. rewrite Hl in H.
  simpl in H.
  destruct (truthy (PatientUI.error s)); simpl in H;
  destruct (truthy (PatientUI.singlePatient s)); simpl in H;
  try destruct (PatientUI.render_patient_card (PatientUI.singlePatient s));
  simpl in H; try discriminate;
  inversion H; subst; simpl; split; reflexivity.
Qed.

(** X15: a sort, however it ends, touches neither the record on display,
    nor the edit form, nor the error message, nor the search box; a search,
    however it ends, touches neither the contents of the list nor the
    search box nor the selects.  But they share [loading]: issuing a search
    puts "Loading..." in place of the sorted list, and there it stays until
    the next sort or search settles, which need not be this search. *)
Theorem sorting_and_searching_share_only_loading :
  (forall s answer os pg,
     PatientUI.singlePatient
       (ui (fst (run (PatientUI.fetchSortedPatients s) answer os pg)))
     = PatientUI.singlePatient (ui pg)
     /\ PatientUI.updateData
          (ui (fst (run (PatientUI.fetchSortedPatients s) answer os pg)))
        = PatientUI.updateData (ui pg)
     /\ PatientUI.error
          (ui (fst (run (PatientUI.fetchSortedPatients s) answer os pg)))
        = PatientUI.error (ui pg)
     /\ PatientUI.patientId
          (ui (fst (run (PatientUI.fetchSortedPatients s) answer os pg)))
        = PatientUI.patientId (ui pg))
  /\ (forall s answer os pg,
     PatientUI.patients
       (ui (fst (run (PatientUI.handleSearch s) answer os pg)))
     = PatientUI.patients (ui pg)
     /\ PatientUI.patientId
          (ui (fst (run (PatientUI.handleSearch s) answer os pg)))
        = PatientUI.patientId (ui pg)
     /\ PatientUI.sortBy
          (ui (fst (run (PatientUI.handleSearch s) answer os pg)))
        = PatientUI.sortBy (ui pg)
     /\ PatientUI.order
          (ui (fst (run (PatientUI.handleSearch s) answer os pg)))
        = PatientUI.order (ui pg))
  /\ (forall s answer pg,
     PatientUI.patientId s <> "" ->
     exists v,
       PatientUI.render (ui (launch (PatientUI.handleSearch s) answer pg))
       = inr v
       /\ PatientUI.patient_list v = Bare (VBool false)
       /\ PatientUI.loading_paragraph v = Element tt)
  /\ (forall e answer pg,
     PatientUI.reachable pg ->
     PatientUI.loading (ui pg) = true ->
     PatientUI.loading (ui (PatientUI.step e answer pg)) = true
     \/ exists i o rk,
          e = PatientUI.Settled i o
          /\ nth_error (inflight pg) i = Some rk
          /\ drives_loading (fst rk) = true)
  /\ (forall i rk o answer pg,
     PatientUI.reachable pg ->
     nth_error (inflight pg) i = Some rk ->
     drives_loading (fst rk) = true ->
     PatientUI.loading (ui (PatientUI.step (PatientUI.Settled i o) answer pg))
     = false).
Proof.
  split; [| split; [| split; [| split]]].
  - intros s answer os pg.
    destruct os as [| [d | response] os]; repeat split.
  - intros s answer os pg.
    unfold PatientUI.handleSearch. rewrite truthy_patientId.
    destruct (String.eqb (PatientUI.patientId s) ""); simpl negb; cbv iota.
    + repeat split.
    + destruct os as [| [d | response] os]; [| destruct d |];
        repeat split.
  - intros s answer pg H.
    assert (Hl : PatientUI.loading
                   (ui (launch (PatientUI.handleSearch s) answer pg))
                 = true).
    { unfold PatientUI.handleSearch. rewrite (patientId_not_empty s H).
      reflexivity. }
    destruct (render_displayable
                (ui (launch (PatientUI.handleSearch s) answer pg)))
      as [v Hv].
    { unfold PatientUI.handleSearch. rewrite (patientId_not_empty s H).
      reflexivity. }
    exists v. split; [exact Hv |]. exact (render_while_loading _ v Hv Hl).
  - intros e answer pg Hr Hl.
    destruct (PatientUI_reachable_invariant pg Hr) as [Hinv _].
    destruct e as [a | i o].
    + left. unfold PatientUI.step.
      assert (Hmid : PatientUI.loading
                       (ui (launch (PatientUI.handler a (ui pg)) answer pg))
                     = true).
      { destruct (PatientUI_launch_handler_state a answer pg)
          as (_ & _ & [[_ E] | (_ & _ & rk & _ & _ & E)]); rewrite E.
        - exact Hl.
        - now destruct (drives_loading (fst rk)). }
      destruct (useEffect_cases (Some (ui pg)) answer
                  (launch (PatientUI.handler a (ui pg)) answer pg))
        as [-> | (rk & _ & _ & _ & _ & E & _)]; [exact Hmid | exact E].
    + destruct (nth_error (inflight pg) i) as [rk |] eqn:E.
      * destruct (drives_loading (fst rk)) eqn:Ed.
        -- right. exists i, o, rk. auto.
        -- left. rewrite (PatientUI_step_settled i rk o answer pg Hr E).
           assert (Hrk : issued_by_handler rk).
           { rewrite Forall_forall in Hinv. apply Hinv.
             eapply nth_error_In; eauto. }
           destruct (PatientUI_rest_of_handler rk o answer
                       (mkPage (ui pg) (log pg) (remove_nth i (inflight pg)))
                       Hrk) as (_ & _ & _ & El & _).
           simpl in El. rewrite El, Ed. exact Hl.
      * left. unfold PatientUI.step, settle. rewrite E.
        now rewrite useEffect_unchanged.
  - intros i rk o answer pg Hr E Ed.
    destruct (PatientUI_reachable_invariant pg Hr) as [Hinv _].
    rewrite (PatientUI_step_settled i rk o answer pg Hr E).
    assert (Hrk : issued_by_handler rk).
    { rewrite Forall_forall in Hinv. apply Hinv. eapply nth_error_In; eauto. }
    destruct (PatientUI_rest_of_handler rk o answer
                (mkPage (ui pg) (log pg) (remove_nth i (inflight pg)))
                Hrk) as (_ & _ & _ & El & _).
    simpl in El. now rewrite El, Ed.
Qed.

Lemma sorting_and_searching_share_only_loading_witness :
  (exists v,
     PatientUI.render
       (ui (launch (PatientUI.handleSearch showing_P001) false
              (mkPage showing_P001 [] [])))
     = inr v
     /\ PatientUI.patient_list v = Bare (VBool false)
     /\ PatientUI.loading_paragraph v = Element tt)
  /\ PatientUI.loading
       (ui (PatientUI.step (PatientUI.Settled 0 (Resolved by_height)) false
              (PatientUI.step (PatientUI.User PatientUI.ClickSearch) false
                 (PatientUI.step
                    (PatientUI.User (PatientUI.TypePatientId "P001")) false
                    PatientUI.mount))))
     = false.
Proof.
  split.
  - apply (proj1 (proj2 (proj2 sorting_and_searching_share_only_loading))).
    discriminate.
  - refine (proj2 (proj2 (proj2 (proj2
              sorting_and_searching_share_only_loading))) 0 _ _ false _ _ _ _).
    + apply PatientUI.reach_user; [| reflexivity].
      apply PatientUI.reach_user; [| reflexivity].
      apply PatientUI.reach_mount.
    + reflexivity.
    + reflexivity.
Defined.

(** ** A search that is answered, on whatever the page has become *)

(** X3: when a search is issued the error message is cleared.  When its
    request is answered with a record (anything but [null] and
    [undefined]), on whatever the page has become meanwhile, the record is
    displayed, [loading] is reset, and the edit form is filled with the six
    editable fields of the record, a field the record lacks being
    [undefined]; the answer leaves the error message and the sorted list as
    it finds them.  [bmi], [verdict] and [id] are not copied, so an update
    sent without further editing carries exactly these six fields. *)
Theorem successful_search_fills_the_edit_form :
  (forall s answer pg,
     PatientUI.patientId s <> "" ->
     PatientUI.error (ui (launch (PatientUI.handleSearch s) answer pg))
     = VStr "")
  /\ (forall i rk d answer pg,
     PatientUI.reachable pg ->
     nth_error (inflight pg) i = Some rk ->
     (exists id, url (fst rk) = api ++ "/patient/" ++ id) ->
     is_present d = true ->
     let after :=
       PatientUI.step (PatientUI.Settled i (Resolved d)) answer pg in
     PatientUI.singlePatient (ui after) = d
     /\ PatientUI.loading (ui after) = false
     /\ PatientUI.updateData (ui after)
        = map (fun n => (n, get_opt d n)) PatientUI.edit_inputs
     /\ PatientUI.render_edit_form (PatientUI.updateData (ui after))
        = map (fun n => (n, get_opt d n)) PatientUI.edit_inputs
     /\ PatientUI.error (ui after) = PatientUI.error (ui pg)
     /\ PatientUI.patients (ui after) = PatientUI.patients (ui pg)
     /\ log after = log pg
     /\ map fst
          (inflight (PatientUI.step (PatientUI.User PatientUI.ClickUpdate)
                       answer after))
        = (map fst (remove_nth i (inflight pg))
           ++ [mkRequest PUT (api ++ "/edit/" ++ PatientUI.patientId (ui pg))
                 []
                 (Some (VObj (map (fun n => (n, get_opt d n))
                                PatientUI.edit_inputs)))])%list)
  /\ (forall s answer d pg,
     PatientUI.patientId s <> "" ->
     is_present d = true ->
     let after :=
       fst (run (PatientUI.handleSearch s) answer [Resolved d] pg) in
     PatientUI.singlePatient (ui after) = d
     /\ PatientUI.error (ui after) = VStr ""
     /\ PatientUI.loading (ui after) = false
     /\ PatientUI.updateData (ui after)
        = map (fun n => (n, get_opt d n)) PatientUI.edit_inputs).
Proof.
  split; [| split].
  - intros s answer pg H. unfold PatientUI.handleSearch.
    rewrite (patientId_not_empty s H). reflexivity.
  - intros i rk d answer pg Hr E Hurl Hd. cbv zeta.
    destruct (PatientUI_reachable_invariant pg Hr) as [Hinv _].
    assert (Hrk : issued_by_handler rk).
    { rewrite Forall_forall in Hinv. apply Hinv. eapply nth_error_In; eauto. }
    destruct (PatientUI_rest_of_search rk answer
                (mkPage (ui pg) (log pg) (remove_nth i (inflight pg)))
                Hrk Hurl) as [_ Hres].
    rewrite PatientUI_step_ClickUpdate.
    rewrite (PatientUI_step_settled i rk _ answer pg Hr E), (Hres d Hd).
    cbn [ui log inflight PatientUI.singlePatient PatientUI.loading
         PatientUI.updateData PatientUI.error PatientUI.patients
         PatientUI.patientId PatientUI.update_request].
    repeat split.
  - intros s answer d pg H Hd. cbv zeta. unfold PatientUI.handleSearch.
    rewrite (patientId_not_empty s H).
    destruct d; try discriminate Hd; repeat split; reflexivity.
Qed.

Lemma successful_search_fills_the_edit_form_witness :
  PatientUI.updateData
    (ui (PatientUI.step (PatientUI.Settled 1 (Resolved sample_patient)) false
           (PatientUI.step (PatientUI.User PatientUI.ClickSearch) false
              (PatientUI.step
                 (PatientUI.User (PatientUI.TypePatientId "P001")) false
                 PatientUI.mount))))
  = [("name", VStr "Ananya Verma"); ("city", VStr "Guwahati");
     ("age", VNum 28); ("gender", VStr "female"); ("height", VNum 1.5);
     ("weight", VNum 72)].
Proof.
  refine (proj1 (proj2 (proj2 (proj1 (proj2
            successful_search_fills_the_edit_form) 1 _ sample_patient false
            _ _ _ _ _)))).
  - apply PatientUI.reach_user; [| reflexivity].
    apply PatientUI.reach_user; [| reflexivity].
    apply PatientUI.reach_mount.
  - reflexivity.
  - exists "P001". reflexivity.
  - reflexivity.
Defined.

(** ** When the page can be displayed *)

(** X12: the patient page is displayed exactly when the error is no object
    (nor an array holding one), the record on display, if there is one, has
    no object among the eight fields of its card, and either the page is
    loading or [patients] is an array of items, none [null] or [undefined],
    with no object among the five fields of their cards.  Otherwise
    rendering throws: the component a [TypeError] when it is not loading
    and [patients] is no array or has a [null] item, and else React its
    [Error] for an object child. *)
Theorem render_succeeds_iff s :
  ((exists v, PatientUI.render s = inr v) <-> displayable s = true)
  /\ (PatientUI.render s = inl TypeError
      <-> PatientUI.loading s = false
          /\ list_mappable (PatientUI.patients s) = false)
  /\ (PatientUI.render s = inl ChildError
      <-> (PatientUI.loading s = true
           \/ list_mappable (PatientUI.patients s) = true)
          /\ displayable s = false)
  /\ (forall e,
        PatientUI.render s = inl e -> e = TypeError \/ e = ChildError).
Proof.
  assert (Hmap : displayable s = true ->
                 PatientUI.loading s = false ->
                 list_mappable (PatientUI.patients s) = true).
  { intros Hd El. unfold displayable in Hd. rewrite El in Hd.
    apply andb_prop in Hd. destruct Hd as [_ Hd]. simpl in Hd.
    now apply list_displayable_mappable. }
  destruct (render_cases s)
    as [(El & Em & Er) | [(Hlm & Hd & Er) | (Hd & v & Er)]];
    rewrite Er.
  - assert (Hnd : displayable s = false).
    { destruct (displayable s); [| reflexivity].
      specialize (Hmap eq_refl El). congruence. }
    split; [| split; [| split]].
    + split; [intros [v H]; discriminate H | congruence].
    + split; auto.
    + split; [discriminate | intros [[H | H] _]; congruence].
    + intros e H; inversion H; auto.
  - split; [| split; [| split]].
    + split; [intros [v H]; discriminate H | congruence].
    + split; [discriminate | intros [H1 H2]; destruct Hlm; congruence].
    + split; auto.
    + intros e H; inversion H; auto.
  - split; [| split; [| split]].
    + split; eauto.
    + split; [discriminate |].
      intros [H1 H2]. specialize (Hmap Hd H1). congruence.
    + split; [discriminate | intros [_ H]; congruence].
    + intros e H; discriminate H.
Qed.

Lemma render_succeeds_iff_witness :
  exists v, PatientUI.render showing_P001 = inr v.
Proof.
  apply (proj2 (proj1 (render_succeeds_iff showing_P001))).
  reflexivity.
Defined.
